(** * A shallow embedding of the ppt_generator backend

    The development models the two cooperating pieces of the backend:
    - [src/backend/llm_providers.py]: JSON extraction from model text, the
      three provider call strategies, and the tenacity retry wrapper around
      [generate_slide_outline];
    - [src/backend/pptx_builder.py] and [src/backend/models.py]: image
      harvesting, layout selection, the slide-building loop and the bullet
      clamp of the [Slide] schema.

    Python [str] values are modelled as Rocq [string]s (one [ascii] per
    character; text is treated as ASCII/bytes, so Unicode-only behaviour of
    [str.lower], [str.strip] and [re] is outside the model).  Python [bytes]
    are [list Byte.byte].  Exceptions are values of [exn]; fallible code
    returns [res]. *)

From Stdlib Require Import Bool Arith ZArith List String Ascii Lia QArith Qminmax.
#[local] Set Warnings "-register-all,-abstract-large-number".
Import ListNotations.
Open Scope string_scope.
Open Scope nat_scope.

(* ------------------------------------------------------------------ *)
(** ** Python values and exceptions *)

(** Values produced by [json.loads].  Numbers keep their source lexeme;
    the conversion to [int]/[float] is not modelled, only their
    truthiness.  Objects are association lists in insertion order with
    unique keys (later duplicates overwrite in place, as [dict] does). *)
Inductive json : Type :=
| JNull
| JBool (b : bool)
| JNum (lexeme : string)
| JStr (s : string)
| JArr (xs : list json)
| JObj (kvs : list (string * json)).

(** An [httpx.Request]: only the parts the code sets. *)
Record Request := mkRequest {
  req_url : string;
  req_headers : list (string * string)
}.

(** An [httpx.Response].  [text_decodes = false] stands for a body whose
    [.text] property raises. *)
Record Response := mkResponse {
  status_code : Z;
  body : string;
  text_decodes : bool;
  request : Request
}.

(** The operations of the presentation library (python-pptx) that the
    builder calls; used to tag the exception a failing call raises. *)
Inductive DocOp : Type :=
| OpLoad            (* Presentation(template_io) *)
| OpLayouts         (* prs.slide_layouts *)
| OpHarvest         (* collect_template_images(template_io) *)
| OpAddSlide        (* prs.slides.add_slide(layout) *)
| OpTitleWrite      (* slide.shapes.title.text = s.title *)
| OpFontClamp       (* inspecting / setting title paragraph fonts *)
| OpBodyWrite       (* tf.clear(), tf.text = ..., tf.add_paragraph() *)
| OpPictureInsert   (* ph.left ... / slide.shapes.add_picture(...) *)
| OpNotes           (* slide.notes_slide / notes_text_frame.text = ... *)
| OpSave.           (* prs.save(bio) *)

Inductive exn : Type :=
| ValueError (msg : string)
| JSONDecodeError
| KeyError
| IndexError
| TypeError
| AttributeError
| HTTPStatusError (msg : string) (req : Request) (resp : Response)
| TransportError                  (* httpx.TransportError from client.post *)
| RetryError (last_attempt : exn) (* tenacity.RetryError wrapping the last outcome *)
| DocumentError (op : DocOp).     (* an exception raised by python-pptx at [op] *)

Inductive res (A : Type) : Type :=
| Ok (a : A)
| Err (e : exn).
Arguments Ok {A} a.
Arguments Err {A} e.

Definition res_bind {A B} (m : res A) (f : A -> res B) : res B :=
  match m with Ok a => f a | Err e => Err e end.

Notation "x <- m ;; k" := (res_bind m (fun x => k))
  (at level 61, m at next level, right associativity).

(** Python truthiness of a decoded JSON value. *)
Fixpoint num_is_zero (lexeme : string) : bool :=
  match lexeme with
  | EmptyString => true
  | String c r =>
      if Ascii.eqb c "e" || Ascii.eqb c "E" then true
      else if Ascii.eqb c "0" || Ascii.eqb c "-" || Ascii.eqb c "." then num_is_zero r
      else false
  end.

Definition py_truthy (v : json) : bool :=
  match v with
  | JNull => false
  | JBool b => b
  | JNum l => negb (num_is_zero l)
  | JStr s => negb (String.eqb s "")
  | JArr xs => negb (Nat.eqb (List.length xs) 0)
  | JObj kvs => negb (Nat.eqb (List.length kvs) 0)
  end.

(* ------------------------------------------------------------------ *)
(** ** Characters *)

Definition code (c : ascii) : nat := nat_of_ascii c.

(** [str.isspace] / regex [\s] on ASCII: [\t\n\v\f\r], [\x1c]-[\x1f], space. *)
Definition is_space (c : ascii) : bool :=
  let n := code c in ((9 <=? n) && (n <=? 13)) || ((28 <=? n) && (n <=? 32)).

Definition ascii_lower (c : ascii) : ascii :=
  let n := code c in
  if (65 <=? n) && (n <=? 90) then ascii_of_nat (n + 32) else c.

Fixpoint str_lower (s : string) : string :=
  match s with
  | EmptyString => EmptyString
  | String c r => String (ascii_lower c) (str_lower r)
  end.

Fixpoint lstrip (s : string) : string :=
  match s with
  | String c r => if is_space c then lstrip r else s
  | EmptyString => EmptyString
  end.

Definition str_rev (s : string) : string :=
  string_of_list_ascii (rev (list_ascii_of_string s)).

(** [str.strip()] *)
Definition str_strip (s : string) : string := str_rev (lstrip (str_rev (lstrip s))).

Definition is_digit (c : ascii) : bool := let n := code c in (48 <=? n) && (n <=? 57).

Definition hex_val (c : ascii) : option nat :=
  let n := code c in
  if (48 <=? n) && (n <=? 57) then Some (n - 48)
  else if (65 <=? n) && (n <=? 70) then Some (n - 55)
  else if (97 <=? n) && (n <=? 102) then Some (n - 87)
  else None.

(** [str(n)] for a non-negative integer. *)
Fixpoint digits_of (fuel n : nat) (acc : string) : string :=
  match fuel with
  | O => acc
  | S f =>
      let acc' := String (ascii_of_nat (48 + n mod 10)) acc in
      if n <? 10 then acc' else digits_of f (n / 10) acc'
  end.

Definition str_of_Z (z : Z) : string :=
  match z with
  | Zneg _ => String "-" (digits_of 64 (Z.to_nat (Z.abs z)) "")
  | _ => digits_of 64 (Z.to_nat z) ""
  end.

(* ------------------------------------------------------------------ *)
(** ** [json.loads] (Python's [json.decoder], strict mode) *)

Definition dquote : ascii := ascii_of_nat 34.
Definition backslash : ascii := ascii_of_nat 92.

(** Test inputs: [with_quotes] turns each [~] into a double quote, so that
    JSON texts can be written without escaping. *)
Fixpoint with_quotes (s : string) : string :=
  match s with
  | EmptyString => EmptyString
  | String c r => String (if Ascii.eqb c "~" then dquote else c) (with_quotes r)
  end.

Definition is_json_ws (c : ascii) : bool :=
  let n := code c in Nat.eqb n 32 || Nat.eqb n 9 || Nat.eqb n 10 || Nat.eqb n 13.

Fixpoint skip_json_ws (s : string) : string :=
  match s with
  | String c r => if is_json_ws c then skip_json_ws r else s
  | EmptyString => EmptyString
  end.

Fixpoint span_digits (s : string) : string * string :=
  match s with
  | String c r =>
      if is_digit c then let (ds, rest) := span_digits r in (String c ds, rest)
      else (EmptyString, s)
  | EmptyString => (EmptyString, EmptyString)
  end.

(** [NUMBER_RE]: an optional minus sign, then [0] or a non-zero digit
    followed by digits, then an optional fraction [\.\d+], then an optional
    exponent [[eE][-+]?\d+]; returns the matched lexeme and the rest of the
    input. *)
Definition scan_number (s : string) : option (string * string) :=
  let '(sign, s1) :=
    match s with
    | String c r => if Ascii.eqb c "-" then ("-", r) else ("", s)
    | EmptyString => ("", s)
    end in
  let int_part :=
    match s1 with
    | String c r =>
        if Ascii.eqb c "0" then Some ("0", r)
        else if is_digit c then let (ds, rest) := span_digits r in Some (String c ds, rest)
        else None
    | EmptyString => None
    end in
  match int_part with
  | None => None
  | Some (i, s2) =>
      let '(frac, s3) :=
        match s2 with
        | String c r =>
            if Ascii.eqb c "." then
              let (ds, rest) := span_digits r in
              if String.eqb ds "" then ("", s2) else (String "." ds, rest)
            else ("", s2)
        | EmptyString => ("", s2)
        end in
      let '(expo, s4) :=
        match s3 with
        | String e r =>
            if Ascii.eqb e "e" || Ascii.eqb e "E" then
              let '(sg, r1) :=
                match r with
                | String c r' =>
                    if Ascii.eqb c "+" || Ascii.eqb c "-" then (String c "", r') else ("", r)
                | EmptyString => ("", r)
                end in
              let (ds, rest) := span_digits r1 in
              if String.eqb ds "" then ("", s3) else (String e (sg ++ ds), rest)
            else ("", s3)
        | EmptyString => ("", s3)
        end in
      Some (sign ++ i ++ frac ++ expo, s4)
  end.

(** UTF-8 encoding of a code point (surrogates encoded like any other
    three-byte code point). *)
Definition utf8_encode (cp : nat) : list ascii :=
  if cp <? 128 then [ascii_of_nat cp]
  else if cp <? 2048 then
    [ascii_of_nat (192 + cp / 64); ascii_of_nat (128 + cp mod 64)]
  else if cp <? 65536 then
    [ascii_of_nat (224 + cp / 4096); ascii_of_nat (128 + (cp / 64) mod 64);
     ascii_of_nat (128 + cp mod 64)]
  else
    [ascii_of_nat (240 + cp / 262144); ascii_of_nat (128 + (cp / 4096) mod 64);
     ascii_of_nat (128 + (cp / 64) mod 64); ascii_of_nat (128 + cp mod 64)].

(** [_decode_uXXXX]: exactly four hex digits. *)
Definition hex4 (s : string) : option (nat * string) :=
  match s with
  | String a (String b (String c (String d r))) =>
      match hex_val a, hex_val b, hex_val c, hex_val d with
      | Some x, Some y, Some z, Some w => Some (((x * 16 + y) * 16 + z) * 16 + w, r)
      | _, _, _, _ => None
      end
  | _ => None
  end.

(** The character(s) a [\uXXXX] escape stands for, joining a surrogate pair. *)
Definition decode_u (s : string) : option (list ascii * string) :=
  match hex4 s with
  | None => None
  | Some (uni, r) =>
      if (55296 <=? uni) && (uni <=? 56319) then
        match r with
        | String b (String u r2) =>
            if Ascii.eqb b backslash && Ascii.eqb u "u" then
              match hex4 r2 with
              | Some (uni2, r3) =>
                  if (56320 <=? uni2) && (uni2 <=? 57343) then
                    Some (utf8_encode (65536 + (uni - 55296) * 1024 + (uni2 - 56320)), r3)
                  else Some (utf8_encode uni, r)
              | None => Some (utf8_encode uni, r)
              end
            else Some (utf8_encode uni, r)
        | _ => Some (utf8_encode uni, r)
        end
      else Some (utf8_encode uni, r)
  end.

Definition simple_escape (e : ascii) : option ascii :=
  if Ascii.eqb e dquote then Some dquote
  else if Ascii.eqb e backslash then Some backslash
  else if Ascii.eqb e "/" then Some "/"%char
  else if Ascii.eqb e "b" then Some (ascii_of_nat 8)
  else if Ascii.eqb e "f" then Some (ascii_of_nat 12)
  else if Ascii.eqb e "n" then Some (ascii_of_nat 10)
  else if Ascii.eqb e "r" then Some (ascii_of_nat 13)
  else if Ascii.eqb e "t" then Some (ascii_of_nat 9)
  else None.

(** [scanstring]: the input starts just after the opening quote; [acc]
    holds the decoded characters in reverse. *)
Fixpoint scan_string (fuel : nat) (s : string) (acc : list ascii) : option (string * string) :=
  match fuel with
  | O => None
  | S f =>
      match s with
      | EmptyString => None
      | String c r =>
          if Ascii.eqb c dquote then Some (string_of_list_ascii (rev acc), r)
          else if Ascii.eqb c backslash then
            match r with
            | EmptyString => None
            | String e r2 =>
                if Ascii.eqb e "u" then
                  match decode_u r2 with
                  | Some (cs, r3) => scan_string f r3 (rev cs ++ acc)
                  | None => None
                  end
                else
                  match simple_escape e with
                  | Some d => scan_string f r2 (d :: acc)
                  | None => None
                  end
            end
          else if code c <? 32 then None
          else scan_string f r (c :: acc)
      end
  end.

Definition starts_with (p s : string) : bool := String.prefix p s.

Definition drop (n : nat) (s : string) : string := substring n (String.length s - n) s.

(** [dict] insertion: an existing key keeps its position, its value is replaced. *)
Fixpoint dict_set (k : string) (v : json) (kvs : list (string * json)) : list (string * json) :=
  match kvs with
  | [] => [(k, v)]
  | (k', v') :: r => if String.eqb k k' then (k, v) :: r else (k', v') :: dict_set k v r
  end.

Fixpoint parse_value (fuel : nat) (s : string) : option (json * string) :=
  match fuel with
  | O => None
  | S f =>
      match s with
      | EmptyString => None
      | String c r =>
          if Ascii.eqb c dquote then
            match scan_string (String.length r + 1) r [] with
            | Some (str, rest) => Some (JStr str, rest)
            | None => None
            end
          else if Ascii.eqb c "{" then parse_object f (skip_json_ws r) []
          else if Ascii.eqb c "[" then parse_array f (skip_json_ws r) []
          else if starts_with "null" s then Some (JNull, drop 4 s)
          else if starts_with "true" s then Some (JBool true, drop 4 s)
          else if starts_with "false" s then Some (JBool false, drop 5 s)
          else match scan_number s with
               | Some (lex, rest) => Some (JNum lex, rest)
               | None =>
                   if starts_with "NaN" s then Some (JNum "NaN", drop 3 s)
                   else if starts_with "Infinity" s then Some (JNum "Infinity", drop 8 s)
                   else if starts_with "-Infinity" s then Some (JNum "-Infinity", drop 9 s)
                   else None
               end
      end
  end
(** [JSONObject]: the input starts after the opening brace and its blanks. *)
with parse_object (fuel : nat) (s : string) (acc : list (string * json)) : option (json * string) :=
  match fuel with
  | O => None
  | S f =>
      match s with
      | String c r =>
          if Ascii.eqb c "}" then
            (match acc with [] => Some (JObj acc, r) | _ => None end)
          else if Ascii.eqb c dquote then
            match scan_string (String.length r + 1) r [] with
            | None => None
            | Some (key, r1) =>
                match skip_json_ws r1 with
                | String colon r2 =>
                    if Ascii.eqb colon ":" then
                      match parse_value f (skip_json_ws r2) with
                      | None => None
                      | Some (v, r3) =>
                          let acc' := dict_set key v acc in
                          match skip_json_ws r3 with
                          | String d r4 =>
                              if Ascii.eqb d "}" then Some (JObj acc', r4)
                              else if Ascii.eqb d "," then
                                match skip_json_ws r4 with
                                | String q _ as r5 =>
                                    if Ascii.eqb q dquote then parse_object f r5 acc' else None
                                | EmptyString => None
                                end
                              else None
                          | EmptyString => None
                          end
                      end
                    else None
                | EmptyString => None
                end
            end
          else None
      | EmptyString => None
      end
  end
(** [JSONArray]: the input starts after the opening bracket and its blanks. *)
with parse_array (fuel : nat) (s : string) (acc : list json) : option (json * string) :=
  match fuel with
  | O => None
  | S f =>
      match s with
      | String c r =>
          if Ascii.eqb c "]" then
            (match acc with [] => Some (JArr [], r) | _ => None end)
          else
            match parse_value f s with
            | None => None
            | Some (v, r1) =>
                match skip_json_ws r1 with
                | String d r2 =>
                    if Ascii.eqb d "]" then Some (JArr (rev (v :: acc)), r2)
                    else if Ascii.eqb d "," then parse_array f (skip_json_ws r2) (v :: acc)
                    else None
                | EmptyString => None
                end
            end
      | EmptyString => None
      end
  end.

(** [json.loads(s)]: blanks, one value, blanks, end of input. *)
Definition json_loads (s : string) : res json :=
  match parse_value (2 * String.length s + 2) (skip_json_ws s) with
  | Some (v, rest) =>
      match skip_json_ws rest with
      | EmptyString => Ok v
      | _ => Err JSONDecodeError
      end
  | None => Err JSONDecodeError
  end.

(* ------------------------------------------------------------------ *)
(** ** [re.search] for the two extraction patterns

    A backtracking matcher in continuation-passing style, following the
    semantics of Python's [re]: a greedy star first tries one more
    iteration, a lazy star first tries to stop; [re.search] returns the
    match at the leftmost starting position.  Positions are suffixes of the
    subject; group 1 is the text between the suffixes where it opens and
    closes. *)

Inductive regex : Type :=
| REps                                  (* the empty pattern *)
| RChar (p : ascii -> bool)             (* one character satisfying [p] *)
| RSeq (r1 r2 : regex)
| RStar (greedy : bool) (r : regex)     (* [r*] when greedy, [r*?] otherwise *)
| RGroup (r : regex).                   (* capturing group 1 *)

Definition take_diff (from to : string) : string :=
  substring 0 (String.length from - String.length to) from.

Fixpoint rmatch {A} (fuel : nat) (r : regex) (s : string) (g : option string)
  (k : string -> option string -> option A) : option A :=
  match fuel with
  | O => None
  | S f =>
      match r with
      | REps => k s g
      | RChar p =>
          match s with
          | String c s' => if p c then k s' g else None
          | EmptyString => None
          end
      | RSeq r1 r2 => rmatch f r1 s g (fun s' g' => rmatch f r2 s' g' k)
      | RStar true r1 =>
          match rmatch f r1 s g (fun s' g' =>
                  if String.length s' <? String.length s
                  then rmatch f (RStar true r1) s' g' k else None) with
          | Some a => Some a
          | None => k s g
          end
      | RStar false r1 =>
          match k s g with
          | Some a => Some a
          | None =>
              rmatch f r1 s g (fun s' g' =>
                if String.length s' <? String.length s
                then rmatch f (RStar false r1) s' g' k else None)
          end
      | RGroup r1 => rmatch f r1 s g (fun s' _ => k s' (Some (take_diff s s')))
      end
  end.

(** The match of [r] at the start of [s], reporting group 1. *)
Definition rmatch_at (r : regex) (s : string) : option (option string) :=
  rmatch (2 * String.length s + 64) r s None (fun _ g => Some g).

(** [re.search(r, s)]: the leftmost position at which [r] matches. *)
Fixpoint re_search (r : regex) (s : string) : option (option string) :=
  match rmatch_at r s with
  | Some g => Some g
  | None =>
      match s with
      | String _ s' => re_search r s'
      | EmptyString => None
      end
  end.

(** The group of a match object, [m.group(1)]. *)
Definition group1 (m : option string) : string :=
  match m with Some g => g | None => EmptyString end.

Definition rlit (ci : bool) (s : string) : regex :=
  fold_right (fun c r => RSeq (RChar (fun d =>
                if ci then Ascii.eqb (ascii_lower c) (ascii_lower d) else Ascii.eqb c d)) r)
             REps (list_ascii_of_string s).

Definition re_dot_s : regex := RChar (fun _ => true).        (* [.] under [re.S] *)
Definition re_ws : regex := RChar is_space.                  (* [\s] *)
Definition re_chr (c : ascii) : regex := RChar (Ascii.eqb c).

(** [r"```json\s*(\{.*?\})\s*```"] with [re.S | re.I]. *)
Definition fence_re : regex :=
  RSeq (rlit true "```json")
 (RSeq (RStar true re_ws)
 (RSeq (RGroup (RSeq (re_chr "{") (RSeq (RStar false re_dot_s) (re_chr "}"))))
 (RSeq (RStar true re_ws)
       (rlit true "```")))).

(** [r"(\{.*\})"] with [re.S]. *)
Definition brace_re : regex :=
  RGroup (RSeq (re_chr "{") (RSeq (RStar true re_dot_s) (re_chr "}"))).

(** [_extract_json_maybe(text)].  The argument is whatever value the caller
    passes ([text] is a [str] in the annotation, but the provider
    strategies may hand over any decoded JSON value). *)
Definition _extract_json_maybe (text : json) : res json :=
  if negb (py_truthy text) then Err (ValueError "Empty response from model")
  else
    match text with
    | JStr t =>
        match re_search fence_re t with
        | Some m => json_loads (group1 m)
        | None =>
            match re_search brace_re t with
            | Some m => json_loads (group1 m)
            | None => json_loads t
            end
        end
    | _ => Err TypeError   (* re.search on a non-string *)
    end.

(** The reading of step (2) in words: from the first [{] of the text to the
    last [}] after it, when there is one.  [split_last_rbrace s] splits [s]
    after its last [}]. *)
Fixpoint split_last_rbrace (s : string) : option (string * string) :=
  match s with
  | EmptyString => None
  | String c r =>
      match split_last_rbrace r with
      | Some (p, rest) => Some (String c p, rest)
      | None => if Ascii.eqb "}" c then Some (String c EmptyString, r) else None
      end
  end.

Fixpoint first_to_last_brace (s : string) : option string :=
  match s with
  | EmptyString => None
  | String c r =>
      if Ascii.eqb "{" c then
        match split_last_rbrace r with
        | Some (p, _) => Some (String c p)
        | None => None
        end
      else first_to_last_brace r
  end.

(** The extraction order as the claim words it: each candidate is parsed in
    turn and the first successful parse wins. *)
Definition extract_first_success (text : string) : res json :=
  let fenced := match re_search fence_re text with
                | Some m => json_loads (group1 m)
                | None => Err JSONDecodeError
                end in
  let braced := match re_search brace_re text with
                | Some m => json_loads (group1 m)
                | None => Err JSONDecodeError
                end in
  match fenced with
  | Ok v => Ok v
  | Err _ => match braced with Ok v => Ok v | Err _ => json_loads text end
  end.

(* ------------------------------------------------------------------ *)
(** ** [models.py]: the [Slide] schema *)

(** [class Slide(BaseModel)] after validation. *)
Record Slide := mkSlide {
  title : string;
  bullets : list string;
  layout_hint : option string;
  notes : option string
}.

(** [Slide.clamp_bullets]: [return v[:8]]. *)
Definition clamp_bullets (v : list string) : list string := firstn 8 v.

Fixpoint dict_get (k : string) (kvs : list (string * json)) : option json :=
  match kvs with
  | [] => None
  | (k', v) :: r => if String.eqb k k' then Some v else dict_get k r
  end.

Fixpoint all_str (xs : list json) : res (list string) :=
  match xs with
  | [] => Ok []
  | JStr x :: r => rest <- all_str r ;; Ok (x :: rest)
  | _ :: _ => Err (ValueError "Input should be a valid string")
  end.

(** An optional [str] field with its default. *)
Definition opt_str_field (v : option json) (default : option string) : res (option string) :=
  match v with
  | None => Ok default
  | Some JNull => Ok None
  | Some (JStr x) => Ok (Some x)
  | Some _ => Err (ValueError "Input should be a valid string")
  end.

(** [Slide.model_validate(v)] on a decoded JSON value: [title] is a
    required [str] of at most 120 characters, [bullets] a list of [str]
    (default empty) passed through [clamp_bullets], [layout_hint] an
    optional [str] defaulting to "Title and Content", [notes] an optional
    [str] defaulting to [None].  Other keys are ignored.  A failure is
    pydantic's [ValidationError], rendered here as [ValueError]. *)
Definition validate_slide (v : json) : res Slide :=
  match v with
  | JObj kvs =>
      t <- match dict_get "title" kvs with
           | Some (JStr t) =>
               if 120 <? String.length t
               then Err (ValueError "String should have at most 120 characters")
               else Ok t
           | Some _ => Err (ValueError "Input should be a valid string")
           | None => Err (ValueError "Field required")
           end ;;
      bs <- match dict_get "bullets" kvs with
            | None => Ok []
            | Some (JArr xs) => all_str xs
            | Some _ => Err (ValueError "Input should be a valid list")
            end ;;
      h <- opt_str_field (dict_get "layout_hint" kvs) (Some "Title and Content") ;;
      n <- opt_str_field (dict_get "notes" kvs) None ;;
      Ok (mkSlide t (clamp_bullets bs) h n)
  | _ => Err (ValueError "Input should be a valid dictionary or instance of Slide")
  end.

(** The bullets the input carries, before validation. *)
Definition raw_bullets (v : json) : list json :=
  match v with
  | JObj kvs => match dict_get "bullets" kvs with Some (JArr xs) => xs | _ => [] end
  | _ => []
  end.

(* ------------------------------------------------------------------ *)
(** ** The template document (the parts of python-pptx the builder uses) *)

Definition bytes := list Byte.byte.

(** A placeholder: its [idx] (0 is the title), its [placeholder_format.type]
    and whether it has a text frame. *)
Record Placeholder := mkPlaceholder {
  ph_idx : nat;
  ph_type : nat;
  ph_has_text_frame : bool
}.

(** [PP_PLACEHOLDER] values the code and python-pptx test. *)
Definition PP_PICTURE : nat := 18.
Definition PP_SLIDE_NUMBER : nat := 13.
Definition PP_FOOTER : nat := 15.
Definition PP_DATE : nat := 16.

Record SlideLayout := mkLayout {
  layout_name : string;          (* [SlideLayout.name], '' when unset *)
  layout_placeholders : list Placeholder
}.

(** A shape of an existing slide; [shape_image_blob = None] when reading
    [shp.image.blob] raises. *)
Record Shape := mkShape {
  shape_is_picture : bool;       (* [shp.shape_type == MSO_SHAPE_TYPE.PICTURE] *)
  shape_image_blob : option bytes
}.

Record Template := mkTemplate {
  slide_layouts : list SlideLayout;
  slides : list (list Shape)     (* the existing slides, each a list of shapes *)
}.

(* ------------------------------------------------------------------ *)
(** ** [collect_template_images] *)

(** The first loop: the blobs of the picture shapes of the existing slides,
    in slide order then shape order; a shape whose blob cannot be read is
    skipped ([except Exception: pass]). *)
Definition harvest_blobs (prs : Template) : list bytes :=
  flat_map (fun sl =>
              flat_map (fun shp =>
                          if shape_is_picture shp then
                            match shape_image_blob shp with Some b => [b] | None => [] end
                          else [])
                       sl)
           (slides prs).

(** The second loop, with its accumulators [uniq] and [seen]:
    [if b and (len(b) not in seen): ...] then [if len(uniq) >= limit: break]. *)
Fixpoint dedup_loop (limit : nat) (blobs : list bytes) (uniq : list bytes) (seen : list nat)
  : list bytes :=
  match blobs with
  | [] => uniq
  | b :: bs =>
      let fresh := negb (Nat.eqb (List.length b) 0) && negb (existsb (Nat.eqb (List.length b)) seen) in
      let uniq' := if fresh then (uniq ++ [b])%list else uniq in
      let seen' := if fresh then List.length b :: seen else seen in
      if limit <=? List.length uniq' then uniq' else dedup_loop limit bs uniq' seen'
  end.

Definition collect_template_images (prs : Template) (limit : nat) : list bytes :=
  dedup_loop limit (harvest_blobs prs) [] [].

(** The reading of the claim: the non-empty blobs that are the first of
    their byte length, in scan order. *)
Fixpoint first_of_each_length (seen : list nat) (blobs : list bytes) : list bytes :=
  match blobs with
  | [] => []
  | b :: bs =>
      if negb (Nat.eqb (List.length b) 0) && negb (existsb (Nat.eqb (List.length b)) seen)
      then b :: first_of_each_length (List.length b :: seen) bs
      else first_of_each_length seen bs
  end.

(* ------------------------------------------------------------------ *)
(** ** [_choose_layout] *)

Definition str_of_nat (n : nat) : string := digits_of 64 n "".

(** [names = [getattr(l, 'name', f'layout-{i}') or f'layout-{i}' ...]] *)
Definition layout_names (layouts : list SlideLayout) : list string :=
  map (fun '(i, l) => if String.eqb (layout_name l) "" then "layout-" ++ str_of_nat i
                      else layout_name l)
      (combine (seq 0 (List.length layouts)) layouts).

Definition priority : list string :=
  ["Title and Content"; "Title and Vertical Text"; "Two Content";
   "Title Only"; "Section Header"; "Content with Caption"].

(** Python's [needle in hay] on strings. *)
Fixpoint str_contains (needle hay : string) : bool :=
  String.prefix needle hay ||
  match hay with
  | EmptyString => false
  | String _ r => str_contains needle r
  end.

(** The index of the first element satisfying [p]. *)
Fixpoint find_first {A} (p : A -> bool) (l : list A) : option nat :=
  match l with
  | [] => None
  | x :: r => if p x then Some 0 else option_map S (find_first p r)
  end.

(** Loop 2: the first [want] of the list for which some name contains it. *)
Fixpoint first_priority (wants : list string) (names : list string) : option nat :=
  match wants with
  | [] => None
  | want :: ws =>
      match find_first (fun n => str_contains (str_lower want) (str_lower n)) names with
      | Some i => Some i
      | None => first_priority ws names
      end
  end.

(** [_choose_layout(prs, layout_hint)]: the index of the chosen layout in
    [prs.slide_layouts]; [prs.slide_layouts[0]] on an empty list raises
    [IndexError].  The argument is a [str], so [(layout_hint or '')] is the
    argument itself. *)
Definition _choose_layout (layouts : list SlideLayout) (layout_hint : string) : res nat :=
  let names := layout_names layouts in
  match find_first (fun n => String.eqb (str_lower n) (str_lower layout_hint)) names with
  | Some i => Ok i
  | None =>
      match first_priority priority names with
      | Some i => Ok i
      | None =>
          let k := if 1 <? List.length layouts then 1 else 0 in
          if k <? List.length layouts then Ok k else Err IndexError
      end
  end.

(** The claim's reading, which matches each layout under its own [name]. *)
Definition choose_layout_by_name (layouts : list SlideLayout) (layout_hint : string) : res nat :=
  let names := map layout_name layouts in
  match find_first (fun n => String.eqb (str_lower n) (str_lower layout_hint)) names with
  | Some i => Ok i
  | None =>
      match first_priority priority names with
      | Some i => Ok i
      | None =>
          let k := if 1 <? List.length layouts then 1 else 0 in
          if k <? List.length layouts then Ok k else Err IndexError
      end
  end.

(* ------------------------------------------------------------------ *)
(** ** Python operations on decoded JSON values *)

(** [v[k]] with a string key. *)
Definition py_getitem (v : json) (k : string) : res json :=
  match v with
  | JObj kvs => match dict_get k kvs with Some x => Ok x | None => Err KeyError end
  | _ => Err TypeError
  end.

(** [v[0]]. *)
Definition py_getitem0 (v : json) : res json :=
  match v with
  | JArr (x :: _) => Ok x
  | JArr [] => Err IndexError
  | JStr (String c _) => Ok (JStr (String c EmptyString))
  | JStr EmptyString => Err IndexError
  | JObj _ => Err KeyError
  | _ => Err TypeError
  end.

(** [v.get(k, default)]: only dictionaries have [get]. *)
Definition py_get (v : json) (k : string) (default : json) : res json :=
  match v with
  | JObj kvs => Ok (match dict_get k kvs with Some x => x | None => default end)
  | _ => Err AttributeError
  end.

(** [for x in v]. *)
Definition py_iter (v : json) : res (list json) :=
  match v with
  | JArr xs => Ok xs
  | JObj kvs => Ok (map (fun kv => JStr (fst kv)) kvs)
  | JStr s => Ok (map (fun c => JStr (String c EmptyString)) (list_ascii_of_string s))
  | _ => Err TypeError
  end.

Fixpoint map_res {A B} (f : A -> res B) (xs : list A) : res (list B) :=
  match xs with
  | [] => Ok []
  | x :: r => y <- f x ;; ys <- map_res f r ;; Ok (y :: ys)
  end.

(** [''.join(xs)]. *)
Fixpoint py_str_join (xs : list json) : res string :=
  match xs with
  | [] => Ok EmptyString
  | JStr x :: r => rest <- py_str_join r ;; Ok (x ++ rest)
  | _ :: _ => Err TypeError
  end.

Fixpoint concat_sep (sep : string) (xs : list string) : string :=
  match xs with
  | [] => EmptyString
  | [x] => x
  | x :: r => x ++ sep ++ concat_sep sep r
  end.

(** [repr(v)] of a decoded value, used in error messages (strings are
    single-quoted without escaping; numbers print as their lexeme). *)
Fixpoint py_repr (v : json) : string :=
  let q := "'" in
  match v with
  | JNull => "None"
  | JBool true => "True"
  | JBool false => "False"
  | JNum l => l
  | JStr s => q ++ s ++ q
  | JArr xs => "[" ++ concat_sep ", " (map py_repr xs) ++ "]"
  | JObj kvs =>
      "{" ++ concat_sep ", " (map (fun kv => q ++ fst kv ++ q ++ ": " ++ py_repr (snd kv)) kvs) ++ "}"
  end.

(* ------------------------------------------------------------------ *)
(** ** The world of a provider call: network, randomness, sleeping *)

(** What the network answers to one [client.post]: [None] when the
    transport raises (connection error, timeout). *)
Record Reply := mkReply {
  reply_status : Z;
  reply_body : string;
  reply_text_decodes : bool
}.

Record World := mkWorld {
  w_replies : list (option Reply);  (* answers to the next posts, in order *)
  w_sent : list Request;            (* posts issued so far, latest first *)
  w_jitters : list Q;               (* the next draws of [random.uniform(0, 1)] *)
  w_sleeps : list Q;                (* sleeps taken so far, latest first *)
  w_attempts : nat                  (* calls of the retried function so far *)
}.

(** The state-and-exception monad of the async provider code. *)
Definition M (A : Type) : Type := World -> res A * World.

Definition mret {A} (a : A) : M A := fun w => (Ok a, w).
Definition mraise {A} (e : exn) : M A := fun w => (Err e, w).
Definition mlift {A} (r : res A) : M A := fun w => (r, w).
Definition mbind {A B} (m : M A) (f : A -> M B) : M B :=
  fun w => match m w with
           | (Ok a, w') => f a w'
           | (Err e, w') => (Err e, w')
           end.

Notation "x <-- m ;; k" := (mbind m (fun x => k))
  (at level 61, m at next level, right associativity).

(** [await client.post(url, headers=..., json=...)]: one request sent, the
    next reply consumed.  An exhausted reply list behaves as a transport
    failure. *)
Definition http_post (req : Request) : M Response :=
  fun w =>
    let w' := mkWorld (tl (w_replies w)) (req :: w_sent w) (w_jitters w) (w_sleeps w) (w_attempts w) in
    match w_replies w with
    | Some r :: _ => (Ok (mkResponse (reply_status r) (reply_body r) (reply_text_decodes r) req), w')
    | _ => (Err TransportError, w')
    end.

Definition posted_world (req : Request) (w : World) : World :=
  mkWorld (tl (w_replies w)) (req :: w_sent w) (w_jitters w) (w_sleeps w) (w_attempts w).

(** [r.json()]. *)
Definition response_json (r : Response) : res json :=
  if text_decodes r then json_loads (body r) else Err JSONDecodeError.

(* ------------------------------------------------------------------ *)
(** ** [llm_providers.py]: the three provider strategies *)

(** [_raise_for_provider_error(resp, provider_label)]: the exception raised. *)
Definition _raise_for_provider_error (resp : Response) (provider_label : string) : exn :=
  let body := if text_decodes resp then substring 0 500 (body resp) else "<no body>" in
  HTTPStatusError (provider_label ++ " HTTP " ++ str_of_Z (status_code resp) ++ ": " ++ body)
                  (request resp) resp.

Definition str_ends_with (suffix s : string) : bool := String.prefix (str_rev suffix) (str_rev s).

Fixpoint lstrip_slash (s : string) : string :=
  match s with
  | String c r => if Ascii.eqb c "/" then lstrip_slash r else s
  | EmptyString => EmptyString
  end.

(** [base.rstrip('/')] *)
Definition rstrip_slash (s : string) : string := str_rev (lstrip_slash (str_rev s)).

(** The URL [_call_openai] posts to, from [OPENAI_BASE] (when set). *)
Definition openai_url (openai_base : option string) : string :=
  let base := match openai_base with Some b => b | None => "https://api.openai.com/v1" end in
  if str_ends_with "/chat/completions" base then base
  else rstrip_slash base ++ "/chat/completions".

(** The request bodies ([data]) carry the model, the prompts and the
    generation settings; no claim observes them, so [Request] records only
    the URL and headers. *)
Definition _call_openai (openai_base : option string) (model api_key : string) : M json :=
  r <-- http_post (mkRequest (openai_url openai_base) [("Authorization", "Bearer " ++ api_key)]) ;;
  if Z.leb 400 (status_code r) then mraise (_raise_for_provider_error r "OpenAI-compatible")
  else mlift (j <- response_json r ;;
              c <- py_getitem j "choices" ;;
              c0 <- py_getitem0 c ;;
              m <- py_getitem c0 "message" ;;
              content <- py_getitem m "content" ;;
              _extract_json_maybe content).

Definition _call_anthropic (model api_key : string) : M json :=
  r <-- http_post (mkRequest "https://api.anthropic.com/v1/messages"
                             [("x-api-key", api_key); ("anthropic-version", "2023-06-01")]) ;;
  if Z.leb 400 (status_code r) then mraise (_raise_for_provider_error r "Anthropic")
  else mlift (j <- response_json r ;;
              blocks <- py_get j "content" (JArr []) ;;
              blks <- py_iter blocks ;;
              texts <- map_res (fun blk => py_get blk "text" (JStr "")) blks ;;
              content <- py_str_join texts ;;
              _extract_json_maybe (JStr content)).

Definition _call_gemini (model api_key : string) : M json :=
  r <-- http_post (mkRequest ("https://generativelanguage.googleapis.com/v1beta/models/" ++ model
                              ++ ":generateContent?key=" ++ api_key) []) ;;
  if Z.leb 400 (status_code r) then mraise (_raise_for_provider_error r "Gemini")
  else mlift (j <- response_json r ;;
              cands <- py_get j "candidates" JNull ;;
              if negb (py_truthy cands)
              then Err (ValueError ("Gemini returned no candidates: " ++ py_repr j))
              else
                cs <- py_getitem j "candidates" ;;
                cand <- py_getitem0 cs ;;
                content <- py_get cand "content" (JObj []) ;;
                parts <- py_get content "parts" (JArr []) ;;
                if negb (py_truthy parts)
                then Err (ValueError ("Gemini returned empty parts: " ++ py_repr j))
                else
                  p0 <- py_getitem0 parts ;;
                  text <- py_get p0 "text" (JStr "") ;;
                  _extract_json_maybe text).

(** The provider label each strategy reports in its status errors. *)
Inductive Provider := OpenAI | Anthropic | Gemini.

Definition provider_label (p : Provider) : string :=
  match p with
  | OpenAI => "OpenAI-compatible"
  | Anthropic => "Anthropic"
  | Gemini => "Gemini"
  end.

Definition call_strategy (openai_base : option string) (p : Provider) (model api_key : string)
  : M json :=
  match p with
  | OpenAI => _call_openai openai_base model api_key
  | Anthropic => _call_anthropic model api_key
  | Gemini => _call_gemini model api_key
  end.

(* ------------------------------------------------------------------ *)
(** ** [generate_slide_outline] and its tenacity decorator *)

(** [(provider or '').strip().lower()] *)
Definition normalized_provider (provider : option string) : string :=
  str_lower (str_strip (match provider with Some p => p | None => "" end)).

Definition supported_provider (p : string) : bool :=
  String.eqb p "openai" || String.eqb p "anthropic" || String.eqb p "gemini".

(** The undecorated body.  [provider] is [None] for Python [None]; the
    prompt payload built from [raw_text] and [guidance] goes into the
    request bodies, which are not modelled. *)
Definition generate_slide_outline_body (openai_base : option string) (provider : option string)
  (model api_key : string) : M json :=
  let provider := normalized_provider provider in
  let or_default d := if String.eqb model "" then d else model in
  if String.eqb provider "openai" then _call_openai openai_base (or_default "gpt-4o-mini") api_key
  else if String.eqb provider "anthropic" then
    _call_anthropic (or_default "claude-3-5-sonnet-latest") api_key
  else if String.eqb provider "gemini" then _call_gemini (or_default "gemini-1.5-pro") api_key
  else mraise (ValueError "Unsupported provider. Use openai|anthropic|gemini.").

(** [wait_exponential_jitter(initial=1, max=8)] (so [exp_base = 2],
    [jitter = 1]) after attempt [attempt_number], given the value drawn
    by [random.uniform(0, 1)]. *)
Definition wait_exponential_jitter (attempt_number : nat) (jitter : Q) : Q :=
  Qmax 0 (Qmin (1 * Qpower (2 # 1) (Z.of_nat attempt_number - 1) + jitter) 8).

(** One draw of [random.uniform(0, 1)] (an exhausted list draws 0). *)
Definition draw_jitter : M Q :=
  fun w => (Ok (hd 0%Q (w_jitters w)),
            mkWorld (w_replies w) (w_sent w) (tl (w_jitters w)) (w_sleeps w) (w_attempts w)).

Definition sleep (d : Q) : M unit :=
  fun w => (Ok tt, mkWorld (w_replies w) (w_sent w) (w_jitters w) (d :: w_sleeps w) (w_attempts w)).

Definition count_attempt : M unit :=
  fun w => (Ok tt, mkWorld (w_replies w) (w_sent w) (w_jitters w) (w_sleeps w) (S (w_attempts w))).

(** tenacity's [AsyncRetrying] with [stop=stop_after_attempt(3)], the
    default [retry=retry_if_exception_type()] (every [Exception]) and the
    default [reraise=False]: after a failed attempt, when
    [attempt_number >= 3] the loop raises [RetryError] holding the last
    outcome, else it sleeps [wait(attempt_number)] and tries again.
    [fuel] bounds the recursion; [3] suffices. *)
Fixpoint retrying {A} (fuel attempt_number : nat) (f : M A) : M A :=
  fun w =>
    match count_attempt w with
    | (_, w1) =>
        match f w1 with
        | (Ok a, w2) => (Ok a, w2)
        | (Err e, w2) =>
            if 3 <=? attempt_number then (Err (RetryError e), w2)
            else
              match fuel with
              | O => (Err (RetryError e), w2)
              | S fuel' =>
                  (j <-- draw_jitter ;;
                   _ <-- sleep (wait_exponential_jitter attempt_number j) ;;
                   retrying fuel' (S attempt_number) f) w2
              end
        end
    end.

(** [generate_slide_outline] as decorated with [@retry(...)]. *)
Definition generate_slide_outline (openai_base : option string) (provider : option string)
  (model api_key : string) : M json :=
  retrying 3 1 (generate_slide_outline_body openai_base provider model api_key).

(** The world as an attempt starts, and after the backoff that follows a
    failed attempt [n]. *)
Definition world_at_attempt (w : World) : World := snd (count_attempt w).

Definition world_after_backoff (n : nat) (w : World) : World :=
  snd ((j <-- draw_jitter ;; sleep (wait_exponential_jitter n j)) w).

(** A network that is down: every post fails in transport. *)
Definition network_down : World := mkWorld [None; None; None] [] [0.5; 0.25]%Q [] 0.





(** A slide with twelve bullets [b1] ... [b12]. *)
Definition slide_with_12_bullets : json :=
  JObj [("title", JStr "Agenda");
        ("bullets", JArr (map (fun n => JStr ("b" ++ str_of_nat n)) (seq 1 12)))].

(** What a greedy [.*] under [re.S] does before its continuation [k]:
    consume as much as possible, then give back one character at a time. *)
Fixpoint greedy_dot {A} (s : string) (g : option string)
  (k : string -> option string -> option A) : option A :=
  match s with
  | EmptyString => k EmptyString g
  | String c s' => match greedy_dot s' g k with Some a => Some a | None => k s g end
  end.

(* ------------------------------------------------------------------ *)
(** ** [build_presentation] *)

(** The placeholders a new slide gets from [add_slide(layout)]: python-pptx
    clones the layout's placeholders except the date, footer and slide
    number ones, and [slide.placeholders] iterates them sorted by [idx]
    (a stable sort). *)
Definition latent_placeholder (ph : Placeholder) : bool :=
  Nat.eqb (ph_type ph) PP_DATE || Nat.eqb (ph_type ph) PP_FOOTER
  || Nat.eqb (ph_type ph) PP_SLIDE_NUMBER.

Fixpoint insert_by_idx (p : Placeholder) (ps : list Placeholder) : list Placeholder :=
  match ps with
  | [] => [p]
  | q :: qs => if ph_idx q <=? ph_idx p then q :: insert_by_idx p qs else p :: ps
  end.

Definition sort_by_idx (ps : list Placeholder) : list Placeholder :=
  fold_left (fun acc p => insert_by_idx p acc) ps [].

Definition slide_placeholders (layout : SlideLayout) : list Placeholder :=
  sort_by_idx (filter (fun ph => negb (latent_placeholder ph)) (layout_placeholders layout)).

(** [slide.shapes.title]: the first placeholder with [idx == 0]. *)
Definition title_position (phs : list Placeholder) : option nat :=
  find_first (fun ph => Nat.eqb (ph_idx ph) 0) phs.

(** The body loop: the first placeholder with a text frame that is not
    the title shape. *)
Definition body_position (phs : list Placeholder) : option nat :=
  let t := title_position phs in
  find_first (fun '(j, ph) =>
                ph_has_text_frame ph
                && negb (match t with Some k => Nat.eqb j k | None => false end))
             (combine (seq 0 (List.length phs)) phs).

(** [pics = [ph for ph in slide.placeholders if ... type == 18]] *)
Definition picture_placeholders (phs : list Placeholder) : list Placeholder :=
  filter (fun ph => Nat.eqb (ph_type ph) PP_PICTURE) phs.

(** The paragraphs of the body after [tf.clear()] and the bullet loop:
    [clear] leaves one empty paragraph, which [tf.text = s.bullets[0]]
    replaces. *)
Definition body_paragraphs (bs : list string) : list string :=
  match bs with [] => [""] | _ => bs end.

(** The slide as written into the saved presentation. *)
Record SlideOut := mkSlideOut {
  out_layout : nat;                  (* index of the layout used *)
  out_placeholders : list Placeholder;
  out_title : option string;         (* text written to the title, if any *)
  out_title_clamped : bool;          (* the font clamp ran to completion *)
  out_body : option (list string);   (* paragraphs of the body placeholder *)
  out_picture : option bytes;        (* the image [rng.choice] picked *)
  out_picture_inserted : bool;       (* [add_picture] succeeded *)
  out_notes : string
}.

(** Which library calls raise: [fault op i] tells whether [op] raises while
    the builder handles the [i]-th slide of the deck ([i = 0] for the calls
    made once per build). *)
Definition Faults := DocOp -> nat -> bool.

Scheme Equality for DocOp.

Definition guard (fault : Faults) (op : DocOp) (i : nat) : res unit :=
  if fault op i then Err (DocumentError op) else Ok tt.

(** [seq[i]] *)
Definition py_index {A} (l : list A) (i : nat) : res A :=
  match nth_error l i with Some x => Ok x | None => Err IndexError end.

(** [collect_template_images(template_io)] inside its [try]: a failure of
    the harvest leaves [reusable_images = []]. *)
Definition reusable_images (fault : Faults) (prs : Template) : list bytes :=
  if fault OpHarvest 0 then [] else collect_template_images prs 8.

(** The generator of [random.Random]: [rng_seed] is [Random(seed)] and
    [randbelow st n] is [_randbelow(n)], which returns an index below [n]
    and the next state. *)
Section Build.
Variable RngState : Type.
Variable rng_seed : Z -> RngState.
Variable randbelow : RngState -> nat -> nat * RngState.

(** [rng.choice(seq)] is [seq[self._randbelow(len(seq))]]. *)
Definition rng_choice (st : RngState) (seq : list bytes) : res bytes * RngState :=
  let '(i, st') := randbelow st (List.length seq) in (py_index seq i, st').

(** [if pics and reusable_images: chosen = rng.choice(reusable_images)] *)
Definition pick_picture (phs : list Placeholder) (reusable : list bytes) (st : RngState)
  : res (option bytes * RngState) :=
  match picture_placeholders phs, reusable with
  | _ :: _, _ :: _ =>
      let '(c, st') := rng_choice st reusable in
      chosen <- c ;; Ok (Some chosen, st')
  | _, _ => Ok (None, st)
  end.

(** One iteration of the slide loop, for the [i]-th slide [s], with the
    generator in state [st]. *)
Definition build_slide (fault : Faults) (prs : Template) (reusable : list bytes)
  (i : nat) (s : Slide) (st : RngState) : res (SlideOut * RngState) :=
  _ <- guard fault OpLayouts i ;;
  k <- _choose_layout (slide_layouts prs) (match layout_hint s with Some h => h | None => "" end) ;;
  layout <- py_index (slide_layouts prs) k ;;
  _ <- guard fault OpAddSlide i ;;
  let phs := slide_placeholders layout in
  t <- match title_position phs with
       | Some _ => _ <- guard fault OpTitleWrite i ;; Ok (Some (title s))
       | None => Ok None
       end ;;
  let clamped := match title_position phs with
                 | Some _ => negb (fault OpFontClamp i)
                 | None => false
                 end in
  b <- match body_position phs with
       | Some _ => _ <- guard fault OpBodyWrite i ;; Ok (Some (body_paragraphs (bullets s)))
       | None => Ok None
       end ;;
  pc <- pick_picture phs reusable st ;;
  let '(pic, st') := pc in
  let inserted := match pic with Some _ => negb (fault OpPictureInsert i) | None => false end in
  _ <- guard fault OpNotes i ;;
  Ok (mkSlideOut k phs t clamped b pic inserted
                 (match notes s with Some n => n | None => "" end), st').

Fixpoint build_slides (fault : Faults) (prs : Template) (reusable : list bytes)
  (i : nat) (deck : list Slide) (st : RngState) : res (list SlideOut) :=
  match deck with
  | [] => Ok []
  | s :: rest =>
      p <- build_slide fault prs reusable i s st ;;
      let '(o, st') := p in
      os <- build_slides fault prs reusable (S i) rest st' ;;
      Ok (o :: os)
  end.

(** [build_presentation(template_io, deck)]: the saved presentation is
    represented by the slides the loop added. *)
Definition build_presentation (fault : Faults) (prs : Template) (deck : list Slide)
  : res (list SlideOut) :=
  _ <- guard fault OpLoad 0 ;;
  let reusable := reusable_images fault prs in
  os <- build_slides fault prs reusable 0 deck (rng_seed 42) ;;
  _ <- guard fault OpSave 0 ;;
  Ok os.

(** The reading of the picture claim: one draw per slide whose layout has
    a picture placeholder while the reusable set is non-empty, in slide
    order, from a generator seeded with 42. *)
Fixpoint picture_draws (prs : Template) (reusable : list bytes) (deck : list Slide)
  (st : RngState) : list (option bytes) :=
  match deck with
  | [] => []
  | s :: rest =>
      let qualifies :=
        match _choose_layout (slide_layouts prs)
                             (match layout_hint s with Some h => h | None => "" end) with
        | Ok k =>
            match nth_error (slide_layouts prs) k with
            | Some l => negb (Nat.eqb (List.length (picture_placeholders (slide_placeholders l))) 0)
            | None => false
            end
        | Err _ => false
        end && negb (Nat.eqb (List.length reusable) 0) in
      if qualifies then
        let '(j, st') := randbelow st (List.length reusable) in
        nth_error reusable j :: picture_draws prs reusable rest st'
      else None :: picture_draws prs reusable rest st
  end.

End Build.

(** The error a result carries, if any. *)
Definition error_of {A} (r : res A) : option exn :=
  match r with Ok _ => None | Err e => Some e end.

(** The library calls whose exceptions the builder swallows. *)
Definition cosmetic (op : DocOp) : bool :=
  match op with OpFontClamp | OpPictureInsert | OpHarvest => true | _ => false end.

(** A result that, when it fails, fails with an [IndexError] or the
    exception of a call that is not cosmetic. *)
Definition fails_only_fatally {A} (r : res A) : Prop :=
  forall e, r = Err e -> e = IndexError \/ exists op, e = DocumentError op /\ cosmetic op = false.

(** A template for the builder examples: a title-and-content layout, a
    picture layout, and one existing slide holding two pictures. *)
Definition ph_title : Placeholder := mkPlaceholder 0 1 true.
Definition ph_body : Placeholder := mkPlaceholder 1 2 true.
Definition ph_picture : Placeholder := mkPlaceholder 2 PP_PICTURE true.
Definition ph_footer : Placeholder := mkPlaceholder 11 PP_FOOTER true.

Definition demo_template : Template :=
  mkTemplate [mkLayout "Title Slide" [ph_title];
              mkLayout "Title and Content" [ph_title; ph_body; ph_footer];
              mkLayout "Picture with Caption" [ph_picture; ph_title; ph_body]]
             [[mkShape true (Some [Byte.x01; Byte.x02]); mkShape false None;
               mkShape true (Some [Byte.x03; Byte.x04; Byte.x05])]].

Definition demo_deck : list Slide :=
  [mkSlide "Intro" ["a"; "b"] None (Some "hello");
   mkSlide "Photo" [] (Some "Picture with Caption") None;
   mkSlide "Photo 2" ["c"] (Some "picture with caption") None].

(** A generator for the examples: a linear congruential one. *)
Definition lcg_seed (z : Z) : nat := Z.to_nat z.
Definition lcg_randbelow (st n : nat) : nat * nat := (Nat.modulo st n, Nat.modulo (st * 75 + 75) 65537).

Definition no_faults : Faults := fun _ _ => false.

(** Every cosmetic call raises. *)
Definition cosmetic_faults : Faults := fun op _ => cosmetic op.

(** The font clamp and the picture insertion raise; the harvest works. *)
Definition clamp_insert_faults : Faults := fun op _ =>
  match op with OpFontClamp | OpPictureInsert => true | _ => false end.

(** Only the calls of [op] raise. *)
Definition fault_at (op : DocOp) : Faults := fun op' _ => DocOp_beq op op'.

(* ------------------------------------------------------------------ *)
(** ** [security.py] *)

(** [MAX_FILE_SIZE_BYTES = 20 * 1024 * 1024] *)
Definition MAX_FILE_SIZE_BYTES : Z := 20 * 1024 * 1024.

(** The key masking works on Python strings as sequences of code points
    ([list nat]), since [MASK] is eight U+2022 bullets. *)
Definition MASK : list nat := repeat 8226 8.

(** [mask_api_key(s)] *)
Definition mask_api_key (s : list nat) : list nat :=
  match s with
  | [] => s
  | _ => if List.length s <=? 8 then MASK
         else (firstn 4 s ++ MASK ++ skipn (List.length s - 2) s)%list
  end.

(** [safe_len(s)]: [len(s or "")], [None] standing for Python's [None]. *)
Definition safe_len (s : option (list nat)) : nat :=
  match s with Some t => List.length t | None => 0 end.

(** The code points of a string of this development. *)
Definition codepoints (s : string) : list nat := map nat_of_ascii (list_ascii_of_string s).

(* ------------------------------------------------------------------ *)
(** ** [models.py]: [SlideDeck] *)

(** The [llm] field: the dictionary the input carried, or the one
    [generate] assigns (with the masked key, a string of code points). *)
Inductive LlmInfo : Type :=
| LlmJson (kvs : list (string * json))
| LlmSettings (provider model : string) (api_key : list nat).

Record SlideDeck := mkDeck {
  deck_slides : list Slide;
  tone : option string;
  use_case : option string;
  fill_missing_notes : bool;
  llm : option LlmInfo
}.

(** [SlideDeck.model_validate(v)]: [slides] a required list of [Slide],
    [tone] and [use_case] optional [str] (default [None]),
    [fill_missing_notes] a [bool] (default [False]) checked by pydantic's
    lax boolean validator [lax_bool] (which accepts numbers and strings
    such as ["yes"]; it is a parameter here), [llm] an optional [dict]. *)
Definition validate_deck (lax_bool : json -> res bool) (v : json) : res SlideDeck :=
  match v with
  | JObj kvs =>
      ss <- match dict_get "slides" kvs with
            | Some (JArr xs) => map_res validate_slide xs
            | Some _ => Err (ValueError "Input should be a valid list")
            | None => Err (ValueError "Field required")
            end ;;
      t <- opt_str_field (dict_get "tone" kvs) None ;;
      u <- opt_str_field (dict_get "use_case" kvs) None ;;
      f <- match dict_get "fill_missing_notes" kvs with
           | None => Ok false
           | Some b => lax_bool b
           end ;;
      l <- match dict_get "llm" kvs with
           | None | Some JNull => Ok None
           | Some (JObj d) => Ok (Some (LlmJson d))
           | Some _ => Err (ValueError "Input should be a valid dictionary")
           end ;;
      Ok (mkDeck ss t u f l)
  | _ => Err (ValueError "Input should be a valid dictionary or instance of SlideDeck")
  end.

(* ------------------------------------------------------------------ *)
(** ** [int(s)] on a header value *)

(** [str.isspace] on the Latin-1 range: the ASCII whitespace of [is_space]
    and [\x85], [\xa0]. *)
Definition py_isspace (c : ascii) : bool :=
  is_space c || Nat.eqb (code c) 133 || Nat.eqb (code c) 160.

Fixpoint lstrip_by (p : ascii -> bool) (s : string) : string :=
  match s with
  | String c r => if p c then lstrip_by p r else s
  | EmptyString => EmptyString
  end.

Definition strip_by (p : ascii -> bool) (s : string) : string :=
  str_rev (lstrip_by p (str_rev (lstrip_by p s))).

(** Decimal digits with single underscores between digits; [prev] tells
    whether the previous character was a digit, [n] counts the digits. *)
Fixpoint scan_decimal (s : string) (acc : Z) (n : nat) (prev : bool) : option (Z * nat) :=
  match s with
  | EmptyString => if prev then Some (acc, n) else None
  | String c r =>
      if is_digit c then scan_decimal r (acc * 10 + Z.of_nat (code c - 48)) (S n) true
      else if Ascii.eqb c "_" && prev then scan_decimal r acc n false
      else None
  end.

(** CPython's limit on the digits of a decimal string ([sys.int_info]). *)
Definition int_max_str_digits : nat := 4300.

(** [int(s)]: surrounding whitespace, an optional sign, then digits. *)
Definition py_int (s : string) : res Z :=
  let t := strip_by py_isspace s in
  let '(sign, digits) := match t with
                         | String "-" r => ((-1)%Z, r)
                         | String "+" r => (1%Z, r)
                         | _ => (1%Z, t)
                         end in
  match scan_decimal digits 0 0 false with
  | Some (v, n) => if int_max_str_digits <? n
                   then Err (ValueError "Exceeds the limit (4300 digits) for integer string conversion")
                   else Ok (sign * v)%Z
  | None => Err (ValueError "invalid literal for int() with base 10")
  end.


(* ------------------------------------------------------------------ *)
(** ** [main.py]: the [/analyze] and [/generate] endpoints *)

(** The [detail] of an [HTTPException]: a fixed text, or a prefix
    followed by [str(e)] of a caught exception. *)
Inductive Detail : Type :=
| DText (s : string)
| DExn (prefix : string) (e : exn).

(** How a request ends: a response, an [HTTPException(status, detail)],
    or an exception the handler does not catch (FastAPI answers 500). *)
Inductive Outcome (A : Type) : Type :=
| Respond (a : A)
| HTTPError (status : Z) (detail : Detail)
| Unhandled (e : exn).
Arguments Respond {A} a.
Arguments HTTPError {A} status detail.
Arguments Unhandled {A} e.

(** An [UploadFile]: its [filename] and [content_type] as sent by the
    client ([None] when absent), the length of [await template.read()],
    and the presentation those bytes hold. *)
Record UploadFile := mkUpload {
  up_filename : option string;
  up_content_type : option string;
  up_size : Z;
  up_template : Template
}.

Definition PPTX_MIME : string :=
  "application/vnd.openxmlformats-officedocument.presentationml.presentation".
Definition POTX_MIME : string :=
  "application/vnd.openxmlformats-officedocument.presentationml.template".

(** [template.content_type not in (PPTX_MIME, POTX_MIME)] *)
Definition bad_content_type (ct : option string) : bool :=
  match ct with
  | Some c => negb (String.eqb c PPTX_MIME || String.eqb c POTX_MIME)
  | None => true
  end.

(** [template.filename.lower().endswith((".pptx", ".potx"))]; a missing
    filename raises [AttributeError] ([None.lower]).  Only the ASCII
    letters of the suffix matter to the test. *)
Definition template_suffix_ok (fn : option string) : res bool :=
  match fn with
  | Some f => let l := str_lower f in Ok (str_ends_with ".pptx" l || str_ends_with ".potx" l)
  | None => Err AttributeError
  end.

(** The [>=] sign (U+2265) of the 422 message, as the UTF-8 bytes of the
    response. *)
Definition ge_sign : string := String (ascii_of_nat 226) (String (ascii_of_nat 137) (String (ascii_of_nat 165) EmptyString)).

Definition short_text_detail : string := "Please paste more text (" ++ ge_sign ++ "10 chars).".
Definition bad_type_detail : string := "Upload a .pptx or .potx file.".

(** [f"... (> {MAX_FILE_SIZE_BYTES // (1024*1024)} MB)."] *)
Definition size_limit_text : string := "(> " ++ str_of_Z (MAX_FILE_SIZE_BYTES / (1024 * 1024)) ++ " MB).".
Definition payload_detail : string := "Payload too large " ++ size_limit_text.
Definition template_detail : string := "Template too large " ++ size_limit_text.

Definition theme_note : string :=
  "Preview is an approximation; final PPTX inherits exact styles from template.".

(** [theme_summary] *)
Record ThemeSummary := mkTheme {
  templateFilename : option string;
  reusableImageCount : nat;
  note : string
}.

Record AnalyzeResponse := mkAnalyzeResponse {
  deck : SlideDeck;
  theme_summary : ThemeSummary
}.

(** The [try: if body_len and int(body_len) > MAX: raise HTTPException(413)
    except ValueError: pass] block: [true] when it raises 413. *)
Definition content_length_too_large (body_len : option string) : bool :=
  match body_len with
  | None | Some EmptyString => false
  | Some h => match py_int h with
              | Ok n => Z.ltb MAX_FILE_SIZE_BYTES n
              | Err _ => false
              end
  end.

(** [python str.strip()] *)
Definition py_strip (s : string) : string := strip_by py_isspace s.

Section Endpoints.
(** [OPENAI_BASE] from the environment. *)
Variable openai_base : option string.
(** pydantic's lax [bool] validator, and the JSON parser of
    [model_validate_json]. *)
Variable lax_bool : json -> res bool.
Variable parse_json : string -> res json.
(** Which python-pptx calls raise (see [build_presentation]). *)
Variable fault : Faults.
Variable RngState : Type.
Variable rng_seed : Z -> RngState.
Variable randbelow : RngState -> nat -> nat * RngState.

(** [analyze(request, text, guidance, provider, model, api_key, template)],
    with [body_len] the [content-length] header.  The form fields are
    [str]; [guidance] only enters the prompt and is not modelled. *)
Definition analyze (body_len : option string) (text provider model api_key : string)
  (template : UploadFile) : World -> Outcome AnalyzeResponse * World :=
  fun w =>
    if String.eqb text "" || (safe_len (Some (codepoints text)) <? 10) then
      (HTTPError 422 (DText short_text_detail), w)
    else
      let type_check :=
        if bad_content_type (up_content_type template) then
          template_suffix_ok (up_filename template)
        else Ok true in
      match type_check with
      | Err e => (Unhandled e, w)
      | Ok false => (HTTPError 415 (DText bad_type_detail), w)
      | Ok true =>
          if content_length_too_large body_len then (HTTPError 413 (DText payload_detail), w)
          else if Z.ltb MAX_FILE_SIZE_BYTES (up_size template) then
            (HTTPError 413 (DText template_detail), w)
          else
            let sample_image_blobs := reusable_images fault (up_template template) in
            match generate_slide_outline openai_base (Some (str_lower (py_strip provider)))
                    (py_strip model) (py_strip api_key) w with
            | (Err e, w') => (HTTPError 502 (DExn "LLM failed: " e), w')
            | (Ok slides_json, w') =>
                match validate_deck lax_bool slides_json with
                | Err ve => (HTTPError 500 (DExn "Bad LLM output. " ve), w')
                | Ok d =>
                    (Respond (mkAnalyzeResponse d
                                (mkTheme (up_filename template)
                                         (List.length sample_image_blobs) theme_note)), w')
                end
            end
      end.

(** The [StreamingResponse] of [/generate]. *)
Record PptxResponse := mkPptxResponse {
  media_type : string;
  content_disposition : string;
  pptx : list SlideOut
}.

(** [generate(deck_json, template, provider, model, api_key)] *)
Definition generate (deck_json : string) (template : UploadFile) (provider model api_key : string)
  : Outcome PptxResponse :=
  match j <- parse_json deck_json ;; validate_deck lax_bool j with
  | Err ve => HTTPError 422 (DExn "Invalid deck JSON: " ve)
  | Ok d =>
      if Z.ltb MAX_FILE_SIZE_BYTES (up_size template) then HTTPError 413 (DText template_detail)
      else
        let d := if negb (String.eqb api_key "") && negb (String.eqb provider "") then
                   mkDeck (deck_slides d) (tone d) (use_case d) true
                          (Some (LlmSettings provider model (mask_api_key (codepoints api_key))))
                 else d in
        match build_presentation RngState rng_seed randbelow fault (up_template template)
                                 (deck_slides d) with
        | Err e => HTTPError 500 (DExn "Failed to build PPTX: " e)
        | Ok os =>
            Respond (mkPptxResponse PPTX_MIME
                       ("attachment; filename=" ++ "generated_presentation.pptx") os)
        end
  end.

End Endpoints.

(* ================================================================== *)
(** * Proofs *)

(** ** The regular expressions *)

Lemma rmatch_star_step {A} (f : nat) (gr : bool) (r : regex) (s : string) (g : option string)
  (k : string -> option string -> option A) :
  rmatch (S f) (RStar gr r) s g k =
  if gr then
    match rmatch f r s g (fun s' g' =>
            if String.length s' <? String.length s then rmatch f (RStar true r) s' g' k else None) with
    | Some a => Some a
    | None => k s g
    end
  else
    match k s g with
    | Some a => Some a
    | None =>
        rmatch f r s g (fun s' g' =>
          if String.length s' <? String.length s then rmatch f (RStar false r) s' g' k else None)
    end.
Proof. destruct gr; reflexivity. Qed.

Lemma rmatch_char_step {A} (f : nat) (p : Ascii.ascii -> bool) (s : string) (g : option string)
  (k : string -> option string -> option A) :
  rmatch (S f) (RChar p) s g k =
  match s with String c s' => if p c then k s' g else None | EmptyString => None end.
Proof. reflexivity. Qed.

Lemma rmatch_star_dot {A} (s : string) (n : nat) (g : option string)
  (k : string -> option string -> option A) :
  String.length s < n -> rmatch n (RStar true re_dot_s) s g k = greedy_dot s g k.
Proof.
  revert n. induction s as [|c s IH]; intros n Hn; destruct n as [|n]; cbn in Hn; try lia.
  - destruct n; reflexivity.
  - destruct n as [|n]; [lia|].
    rewrite rmatch_star_step. unfold re_dot_s. rewrite rmatch_char_step.
    replace (String.length s <? String.length (String c s)) with true
      by (symmetry; apply Nat.ltb_lt; cbn; lia).
    fold re_dot_s. rewrite IH by lia. reflexivity.
Qed.
Lemma rmatch_seq_step {A} (f : nat) (r1 r2 : regex) (s : string) (g : option string)
  (k : string -> option string -> option A) :
  rmatch (S f) (RSeq r1 r2) s g k = rmatch f r1 s g (fun s' g' => rmatch f r2 s' g' k).
Proof. reflexivity. Qed.

Lemma rmatch_group_step {A} (f : nat) (r : regex) (s : string) (g : option string)
  (k : string -> option string -> option A) :
  rmatch (S f) (RGroup r) s g k = rmatch f r s g (fun s' _ => k s' (Some (take_diff s s'))).
Proof. reflexivity. Qed.

Lemma greedy_dot_rbrace {A} (m : nat) (s : string) (g : option string)
  (f : string -> option string -> A) :
  greedy_dot s g (fun s2 g2 => rmatch (S m) (re_chr "}") s2 g2 (fun s3 g3 => Some (f s3 g3)))
  = match split_last_rbrace s with Some (_, rest) => Some (f rest g) | None => None end.
Proof.
  induction s as [|c s IH]; cbn [greedy_dot split_last_rbrace]; [reflexivity|].
  rewrite IH. destruct (split_last_rbrace s) as [[p rest]|]; [reflexivity|].
  unfold re_chr. rewrite rmatch_char_step.
  destruct (Ascii.eqb "}" c); reflexivity.
Qed.

Lemma split_last_rbrace_app (s p rest : string) :
  split_last_rbrace s = Some (p, rest) -> s = p ++ rest.
Proof.
  revert p rest. induction s as [|c s IH]; intros p rest H; cbn [split_last_rbrace] in H; [discriminate|].
  destruct (split_last_rbrace s) as [[p' r']|] eqn:E.
  - injection H as <- <-. cbn. f_equal. apply IH. reflexivity.
  - destruct (Ascii.eqb "}" c); [|discriminate]. injection H as <- <-. reflexivity.
Qed.

Lemma substring_app_prefix (p q : string) :
  substring 0 (String.length p) (p ++ q) = p.
Proof. induction p as [|c p IH]; cbn; [destruct q; reflexivity | now rewrite IH]. Qed.

Lemma str_length_app (p q : string) : String.length (p ++ q) = String.length p + String.length q.
Proof. induction p as [|c p IH]; cbn; congruence. Qed.

Lemma take_diff_app (c : Ascii.ascii) (p q : string) :
  take_diff (String c (p ++ q)) q = String c p.
Proof.
  unfold take_diff. cbn [String.length]. rewrite str_length_app.
  replace (S (String.length p + String.length q) - String.length q) with (S (String.length p)) by lia.
  cbn. now rewrite substring_app_prefix.
Qed.

Lemma split_last_rbrace_none (s : string) :
  split_last_rbrace s = None -> first_to_last_brace s = None.
Proof.
  induction s as [|c s IH]; cbn [split_last_rbrace first_to_last_brace]; [reflexivity|].
  destruct (split_last_rbrace s) as [[p r]|]; [discriminate|].
  intros H. destruct (Ascii.eqb "{" c); [reflexivity|]. apply IH; reflexivity.
Qed.

Lemma rmatch_at_brace (s : string) :
  rmatch_at brace_re s =
  match s with
  | String c s1 =>
      if Ascii.eqb "{" c then
        match split_last_rbrace s1 with Some (p, _) => Some (Some (String c p)) | None => None end
      else None
  | EmptyString => None
  end.
Proof.
  unfold rmatch_at, brace_re.
  destruct s as [|c s1]; [reflexivity|].
  cbn [String.length].
  replace (2 * S (String.length s1) + 64) with (S (S (S (S (2 * String.length s1 + 62))))) by lia.
  rewrite rmatch_group_step, rmatch_seq_step.
  unfold re_chr at 1. rewrite rmatch_char_step.
  destruct (Ascii.eqb "{" c) eqn:Ec; [|reflexivity].
  rewrite rmatch_seq_step, rmatch_star_dot by lia.
  replace (2 * String.length s1 + 62) with (S (2 * String.length s1 + 61)) by lia.
  rewrite (greedy_dot_rbrace _ s1 None (fun s3 _ => Some (take_diff (String c s1) s3))).
  destruct (split_last_rbrace s1) as [[p rest]|] eqn:E; [|reflexivity].
  apply split_last_rbrace_app in E. subst s1.
  rewrite take_diff_app. reflexivity.
Qed.

Lemma re_search_brace (s : string) :
  re_search brace_re s = match first_to_last_brace s with Some g => Some (Some g) | None => None end.
Proof.
  induction s as [|c s IH].
  - reflexivity.
  - cbn [re_search first_to_last_brace]. rewrite rmatch_at_brace.
    destruct (Ascii.eqb "{" c) eqn:Ec; [|exact IH].
    destruct (split_last_rbrace s) as [[p rest]|] eqn:E; [reflexivity|].
    rewrite IH, split_last_rbrace_none by exact E. reflexivity.
Qed.

(** ** Claim C3: JSON extraction *)

(** C3 (amended).  [_extract_json_maybe] on a string: an empty text raises
    [ValueError]; otherwise the first pattern that matches decides and its
    text is parsed, a parse failure being raised at once: (1) the group of
    the first fenced [json] block, else (2) the span from the first [{] to
    the last [}] after it, else (3) the whole text.  On the example text it
    returns the full outer object. *)
Theorem extract_json_maybe_first_match (t : string) :
  _extract_json_maybe (JStr t) =
    (if String.eqb t "" then Err (ValueError "Empty response from model")
     else match re_search fence_re t with
          | Some m => json_loads (group1 m)
          | None => match first_to_last_brace t with
                    | Some g => json_loads g
                    | None => json_loads t
                    end
          end)
  /\ _extract_json_maybe (JStr (with_quotes "Here's the answer: {~a~: {~slides~: []}} done"))
     = Ok (JObj [("a", JObj [("slides", JArr [])])]).
Proof.
  split.
  - unfold _extract_json_maybe. cbn [py_truthy].
    destruct (String.eqb t "") eqn:E; [reflexivity|]. cbn [negb].
    destruct (re_search fence_re t) as [m|]; [reflexivity|].
    rewrite re_search_brace. destruct (first_to_last_brace t); reflexivity.
  - vm_compute. reflexivity.
Qed.

(** C3 (counterexample).  A text whose fenced block does not parse is not
    handed on to the later strategies: a JSON object holding a string with a
    fenced block raises, although the brace span (the whole text) parses. *)
Lemma extract_json_maybe_no_fallthrough :
  _extract_json_maybe (JStr (with_quotes "{~k~: ~```json {x} ```~}")) = Err JSONDecodeError
  /\ extract_first_success (with_quotes "{~k~: ~```json {x} ```~}")
     = Ok (JObj [("k", JStr "```json {x} ```")]).
Proof. split; vm_compute; reflexivity. Qed.

(** ** Claim C5: the bullet clamp *)

Lemma all_str_ok (xs : list json) (bs : list string) :
  all_str xs = Ok bs -> map JStr bs = xs.
Proof.
  revert bs. induction xs as [|x xs IH]; intros bs H; cbn in H.
  - injection H as <-. reflexivity.
  - destruct x; try discriminate.
    destruct (all_str xs) as [r|e] eqn:E; cbn in H; [|discriminate].
    injection H as <-. cbn. f_equal. apply IH. reflexivity.
Qed.

Lemma firstn_min_8 {A} (xs : list A) :
  firstn (Nat.min (List.length xs) 8) xs = firstn 8 xs.
Proof.
  destruct (Nat.le_ge_cases (List.length xs) 8) as [H|H].
  - rewrite Nat.min_l by exact H. rewrite firstn_all, firstn_all2 by exact H. reflexivity.
  - rewrite Nat.min_r by exact H. reflexivity.
Qed.

(** C5.  A slide accepted by [validate_slide] carries exactly the first
    [min(n, 8)] input bullets, in their order. *)
Theorem validate_slide_bullets (v : json) (s : Slide) :
  validate_slide v = Ok s ->
  map JStr (bullets s) = firstn (Nat.min (List.length (raw_bullets v)) 8) (raw_bullets v)
  /\ List.length (bullets s) = Nat.min (List.length (raw_bullets v)) 8.
Proof.
  intros H. destruct v as [| | | |xs|kvs]; try discriminate.
  unfold validate_slide in H. unfold raw_bullets.
  destruct (dict_get "title" kvs) as [[| | |t| |]|]; try discriminate.
  destruct (120 <? String.length t); [discriminate|]. cbn [res_bind] in H.
  destruct (dict_get "bullets" kvs) as [[| | | |xs|]|] eqn:EB; try discriminate.
  - cbn [res_bind] in H.
    destruct (all_str xs) as [bs|e] eqn:E; cbn [res_bind] in H; [|discriminate].
    destruct (opt_str_field (dict_get "layout_hint" kvs) _); cbn [res_bind] in H; [|discriminate].
    destruct (opt_str_field (dict_get "notes" kvs) _); cbn [res_bind] in H; [|discriminate].
    injection H as <-. cbn [bullets]. unfold clamp_bullets.
    apply all_str_ok in E. subst xs.
    rewrite firstn_min_8, firstn_map, !length_firstn, length_map.
    split; [reflexivity | apply Nat.min_comm].
  - cbn [res_bind] in H.
    destruct (opt_str_field (dict_get "layout_hint" kvs) _); cbn [res_bind] in H; [|discriminate].
    destruct (opt_str_field (dict_get "notes" kvs) _); cbn [res_bind] in H; [|discriminate].
    injection H as <-. split; reflexivity.
Qed.

(** The twelve-bullet slide validates to its first eight bullets. *)
Lemma validate_slide_bullets_witness :
  validate_slide slide_with_12_bullets
    = Ok (mkSlide "Agenda" ["b1"; "b2"; "b3"; "b4"; "b5"; "b6"; "b7"; "b8"]
                  (Some "Title and Content") None)
  /\ map JStr ["b1"; "b2"; "b3"; "b4"; "b5"; "b6"; "b7"; "b8"]
     = firstn (Nat.min (List.length (raw_bullets slide_with_12_bullets)) 8)
              (raw_bullets slide_with_12_bullets)
  /\ List.length ["b1"; "b2"; "b3"; "b4"; "b5"; "b6"; "b7"; "b8"]
     = Nat.min (List.length (raw_bullets slide_with_12_bullets)) 8.
Proof.
  assert (H : validate_slide slide_with_12_bullets
    = Ok (mkSlide "Agenda" ["b1"; "b2"; "b3"; "b4"; "b5"; "b6"; "b7"; "b8"]
                  (Some "Title and Content") None)) by (vm_compute; reflexivity).
  split; [exact H|].
  exact (validate_slide_bullets _ _ H).
Defined.

(** ** Claim C9: the reusable image set *)

Lemma dedup_loop_firstn (limit : nat) (blobs uniq : list bytes) (seen : list nat) :
  List.length uniq < limit ->
  dedup_loop limit blobs uniq seen
  = (uniq ++ firstn (limit - List.length uniq) (first_of_each_length seen blobs))%list.
Proof.
  revert uniq seen. induction blobs as [|b bs IH]; intros uniq seen Hlt; cbn [dedup_loop first_of_each_length].
  - rewrite firstn_nil, app_nil_r. reflexivity.
  - destruct (negb (Nat.eqb (List.length b) 0) && negb (existsb (Nat.eqb (List.length b)) seen)).
    + rewrite length_app. cbn [List.length].
      destruct (limit <=? List.length uniq + 1) eqn:E.
      * apply Nat.leb_le in E.
        replace (limit - List.length uniq) with 1 by lia. reflexivity.
      * apply Nat.leb_gt in E.
        rewrite IH by (rewrite length_app; cbn; lia).
        rewrite length_app. cbn [List.length].
        replace (limit - List.length uniq) with (S (limit - (List.length uniq + 1))) by lia.
        rewrite <- app_assoc. reflexivity.
    + destruct (limit <=? List.length uniq) eqn:E.
      * apply Nat.leb_le in E. lia.
      * apply IH. exact Hlt.
Qed.

Lemma first_of_each_length_fresh (seen : list nat) (blobs : list bytes) (x : bytes) :
  In x (first_of_each_length seen blobs) ->
  List.length x <> 0 /\ ~ In (List.length x) seen.
Proof.
  revert seen. induction blobs as [|b bs IH]; intros seen H; cbn [first_of_each_length] in H.
  - destruct H.
  - destruct (Nat.eqb (List.length b) 0) eqn:E0; cbn [negb andb] in H.
    + apply IH, H.
    + destruct (existsb (Nat.eqb (List.length b)) seen) eqn:E1; cbn [negb] in H.
      * apply IH, H.
      * destruct H as [<-|H].
        -- split; [apply Nat.eqb_neq, E0|].
           intros Hin. assert (existsb (Nat.eqb (List.length b)) seen = true) as Hc.
           { apply existsb_exists. exists (List.length b). split; [exact Hin | apply Nat.eqb_refl]. }
           congruence.
        -- destruct (IH _ H) as [Hx Hn]. split; [exact Hx|]. intros Hin. apply Hn. right. exact Hin.
Qed.

Lemma first_of_each_length_nodup (seen : list nat) (blobs : list bytes) :
  NoDup (map (@List.length _) (first_of_each_length seen blobs)).
Proof.
  revert seen. induction blobs as [|b bs IH]; intros seen; cbn [first_of_each_length].
  - constructor.
  - destruct (negb (Nat.eqb (List.length b) 0) && negb (existsb (Nat.eqb (List.length b)) seen)).
    + cbn [map]. constructor; [|apply IH].
      intros Hin. apply in_map_iff in Hin as [x [Hx Hin]].
      apply first_of_each_length_fresh in Hin as [_ Hn]. apply Hn. left. symmetry. exact Hx.
    + apply IH.
Qed.

Lemma first_of_each_length_first (seen : list nat) (blobs : list bytes) (x : bytes) :
  In x (first_of_each_length seen blobs) ->
  exists pre post, blobs = (pre ++ x :: post)%list
                   /\ Forall (fun c => List.length c <> List.length x) pre.
Proof.
  revert seen. induction blobs as [|b bs IH]; intros seen H; cbn [first_of_each_length] in H.
  - destruct H.
  - destruct (Nat.eqb (List.length b) 0) eqn:E0; cbn [negb andb] in H.
    + destruct (IH _ H) as [pre [post [-> Hf]]]. exists (b :: pre), post. split; [reflexivity|].
      constructor; [|exact Hf].
      apply first_of_each_length_fresh in H as [Hx _]. apply Nat.eqb_eq in E0. congruence.
    + destruct (existsb (Nat.eqb (List.length b)) seen) eqn:E1; cbn [negb] in H.
      * destruct (IH _ H) as [pre [post [-> Hf]]]. exists (b :: pre), post. split; [reflexivity|].
        constructor; [|exact Hf].
        apply first_of_each_length_fresh in H as [_ Hn].
        apply existsb_exists in E1 as [m [Hm Heq]]. apply Nat.eqb_eq in Heq. subst m.
        intros Heq. apply Hn. rewrite <- Heq. exact Hm.
      * destruct H as [<-|H].
        -- exists [], bs. split; [reflexivity | constructor].
        -- destruct (IH _ H) as [pre [post [-> Hf]]]. exists (b :: pre), post.
           split; [reflexivity|]. constructor; [|exact Hf].
           apply first_of_each_length_fresh in H as [_ Hn].
           intros Heq. apply Hn. left. exact Heq.
Qed.

Lemma in_firstn_in {A} (n : nat) (l : list A) (x : A) : In x (firstn n l) -> In x l.
Proof. intros H. rewrite <- (firstn_skipn n l). apply in_or_app. left. exact H. Qed.

Lemma nodup_firstn {A} (n : nat) (l : list A) : NoDup l -> NoDup (firstn n l).
Proof.
  intros H. rewrite <- (firstn_skipn n l) in H. apply NoDup_app_remove_r in H. exact H.
Qed.

(** C9.  With the default limit, [collect_template_images] returns the
    first eight of the non-empty blobs that are the first of their byte
    length in scan order (slides in order, shapes in order), in that order;
    hence at most 8 blobs, pairwise distinct lengths, and each one preceded
    in the scan by no blob of its length. *)
Theorem collect_template_images_spec (prs : Template) :
  collect_template_images prs 8 = firstn 8 (first_of_each_length [] (harvest_blobs prs))
  /\ List.length (collect_template_images prs 8) <= 8
  /\ NoDup (map (@List.length _) (collect_template_images prs 8))
  /\ (forall b, In b (collect_template_images prs 8) ->
        exists pre post, harvest_blobs prs = (pre ++ b :: post)%list
                         /\ Forall (fun c => List.length c <> List.length b) pre).
Proof.
  assert (E : collect_template_images prs 8 = firstn 8 (first_of_each_length [] (harvest_blobs prs))).
  { unfold collect_template_images. rewrite dedup_loop_firstn by (cbn; lia). reflexivity. }
  rewrite E. split; [reflexivity|]. split; [|split].
  - rewrite length_firstn. apply Nat.le_min_l.
  - rewrite <- firstn_map. apply nodup_firstn, first_of_each_length_nodup.
  - intros b Hb. apply in_firstn_in in Hb.
    exact (first_of_each_length_first _ _ _ Hb).
Qed.

(** ** Claim C4: layout selection *)

Lemma find_first_some {A} (p : A -> bool) (l : list A) (i : nat) (d : A) :
  find_first p l = Some i ->
  i < List.length l /\ p (nth i l d) = true /\ (forall j, j < i -> p (nth j l d) = false).
Proof.
  revert i. induction l as [|x l IH]; intros i H; cbn [find_first] in H; [discriminate|].
  destruct (p x) eqn:Ex.
  - injection H as <-. cbn. split; [lia|]. split; [exact Ex|]. intros j Hj; lia.
  - destruct (find_first p l) as [k|] eqn:Ek; cbn [option_map] in H; [|discriminate].
    injection H as <-. destruct (IH k eq_refl) as [Hk [Hp Hbefore]].
    cbn [List.length nth]. split; [lia|]. split; [exact Hp|].
    intros [|j] Hj; [exact Ex|]. apply Hbefore. lia.
Qed.

Lemma find_first_none {A} (p : A -> bool) (l : list A) (d : A) :
  find_first p l = None -> forall j, j < List.length l -> p (nth j l d) = false.
Proof.
  induction l as [|x l IH]; intros H j Hj; cbn [List.length] in Hj; [lia|].
  cbn [find_first] in H. destruct (p x) eqn:Ex; [discriminate|].
  destruct (find_first p l); [discriminate|].
  destruct j as [|j]; [exact Ex|]. apply IH; [reflexivity|lia].
Qed.

Lemma first_priority_some (wants names : list string) (i : nat) :
  first_priority wants names = Some i ->
  exists pre w post,
    wants = (pre ++ w :: post)%list
    /\ (forall w' j, In w' pre -> j < List.length names ->
                     str_contains (str_lower w') (str_lower (nth j names "")) = false)
    /\ i < List.length names
    /\ str_contains (str_lower w) (str_lower (nth i names "")) = true
    /\ (forall j, j < i -> str_contains (str_lower w) (str_lower (nth j names "")) = false).
Proof.
  induction wants as [|w ws IH]; intros H; cbn [first_priority] in H; [discriminate|].
  destruct (find_first _ names) as [k|] eqn:Ek.
  - injection H as <-. apply (find_first_some _ _ _ "") in Ek as [Hk [Hp Hb]].
    exists [], w, ws. split; [reflexivity|]. split; [intros w' j []|]. auto.
  - destruct (IH H) as [pre [w0 [post [-> [Hpre Hrest]]]]].
    exists (w :: pre), w0, post. split; [reflexivity|]. split; [|exact Hrest].
    intros w' j [<-|Hin] Hj.
    + exact (find_first_none _ _ "" Ek j Hj).
    + exact (Hpre w' j Hin Hj).
Qed.

Lemma first_priority_none (wants names : list string) :
  first_priority wants names = None ->
  forall w j, In w wants -> j < List.length names ->
              str_contains (str_lower w) (str_lower (nth j names "")) = false.
Proof.
  induction wants as [|w0 ws IH]; intros H w j Hin Hj; [destruct Hin|].
  cbn [first_priority] in H. destruct (find_first _ names) as [k|] eqn:Ek; [discriminate|].
  destruct Hin as [<-|Hin].
  - exact (find_first_none _ _ "" Ek j Hj).
  - exact (IH H w j Hin Hj).
Qed.

Lemma layout_names_length (layouts : list SlideLayout) :
  List.length (layout_names layouts) = List.length layouts.
Proof.
  unfold layout_names. rewrite length_map, length_combine, length_seq. apply Nat.min_id.
Qed.

(** C4 (amended).  [_choose_layout] returns the index of (1) the first
    layout whose name equals the hint case-insensitively, names being
    [layout_names] (an empty name reads [layout-<i>]); otherwise (2) for the
    first archetype of [priority] contained case-insensitively in some
    name, the first layout whose name contains it; otherwise (3) the second
    layout when there are at least two, else the first. *)
Theorem choose_layout_order (layouts : list SlideLayout) (hint : string) (i : nat) :
  _choose_layout layouts hint = Ok i ->
  i < List.length layouts
  /\ ((String.eqb (str_lower (nth i (layout_names layouts) "")) (str_lower hint) = true
       /\ forall j, j < i ->
            String.eqb (str_lower (nth j (layout_names layouts) "")) (str_lower hint) = false)
   \/ ((forall j, j < List.length layouts ->
            String.eqb (str_lower (nth j (layout_names layouts) "")) (str_lower hint) = false)
       /\ exists pre w post,
            priority = (pre ++ w :: post)%list
            /\ (forall w' j, In w' pre -> j < List.length layouts ->
                  str_contains (str_lower w') (str_lower (nth j (layout_names layouts) "")) = false)
            /\ str_contains (str_lower w) (str_lower (nth i (layout_names layouts) "")) = true
            /\ (forall j, j < i ->
                  str_contains (str_lower w) (str_lower (nth j (layout_names layouts) "")) = false))
   \/ ((forall j, j < List.length layouts ->
            String.eqb (str_lower (nth j (layout_names layouts) "")) (str_lower hint) = false)
       /\ (forall w j, In w priority -> j < List.length layouts ->
            str_contains (str_lower w) (str_lower (nth j (layout_names layouts) "")) = false)
       /\ i = (if 1 <? List.length layouts then 1 else 0))).
Proof.
  unfold _choose_layout. rewrite <- (layout_names_length layouts).
  destruct (find_first _ (layout_names layouts)) as [k|] eqn:E1.
  - intros H. injection H as <-.
    apply (find_first_some _ _ _ "") in E1 as [Hk [Hp Hb]].
    split; [exact Hk|]. left. split; [exact Hp | exact Hb].
  - pose proof (find_first_none _ _ "" E1) as Hnone.
    destruct (first_priority priority (layout_names layouts)) as [k|] eqn:E2.
    + intros H. injection H as <-.
      destruct (first_priority_some _ _ _ E2) as [pre [w [post [Hp [Hpre [Hk [Hw Hb]]]]]]].
      split; [exact Hk|]. right; left. split; [exact Hnone|].
      exists pre, w, post. auto.
    + pose proof (first_priority_none _ _ E2) as Hnone2.
      destruct (_ <? List.length (layout_names layouts)) eqn:E3; [|discriminate].
      intros H. injection H as <-. apply Nat.ltb_lt in E3.
      split; [exact E3|]. right; right. auto.
Qed.

(** The two layout-selection examples of the specification. *)
Lemma choose_layout_order_witness :
  _choose_layout [mkLayout "Title and Content" []; mkLayout "Blank" []] "title and content" = Ok 0
  /\ _choose_layout [mkLayout "Custom1" []; mkLayout "Custom2" []] "Nonexistent Layout" = Ok 1
  /\ 0 < 2.
Proof.
  assert (H1 : _choose_layout [mkLayout "Title and Content" []; mkLayout "Blank" []]
                 "title and content" = Ok 0) by (vm_compute; reflexivity).
  assert (H2 : _choose_layout [mkLayout "Custom1" []; mkLayout "Custom2" []]
                 "Nonexistent Layout" = Ok 1) by (vm_compute; reflexivity).
  split; [exact H1|]. split; [exact H2|].
  exact (proj1 (choose_layout_order _ _ _ H1)).
Defined.

(** C4 (counterexample).  A layout with an empty name is not matched by an
    empty hint under its own name: the code matches it as [layout-0] and
    falls back to the second layout, while matching by name would pick the
    first. *)
Lemma choose_layout_unnamed :
  _choose_layout [mkLayout "" []; mkLayout "Blank" []] "" = Ok 1
  /\ choose_layout_by_name [mkLayout "" []; mkLayout "Blank" []] "" = Ok 0.
Proof. split; vm_compute; reflexivity. Qed.

(** ** Claims C1, C2 and C6: provider calls *)

(** A strategy posts once and then only computes. *)
Lemma post_then_pure {A} (req : Request) (k : Response -> M A) (w : World) :
  (forall r w', snd (k r w') = w') ->
  snd (mbind (http_post req) k w) = posted_world req w.
Proof.
  intros Hk. unfold mbind, http_post, posted_world.
  destruct (w_replies w) as [|[r|] rs]; try reflexivity. apply Hk.
Qed.

Lemma strategy_world (base : option string) (p : Provider) (model key : string) (w : World) :
  exists req, snd (call_strategy base p model key w) = posted_world req w.
Proof.
  destruct p; unfold call_strategy;
    [unfold _call_openai | unfold _call_anthropic | unfold _call_gemini];
    eexists; apply post_then_pure;
    intros r w'; destruct (Z.leb 400 (status_code r)); reflexivity.
Qed.

Lemma body_unsupported (base provider : option string) (model key : string) :
  supported_provider (normalized_provider provider) = false ->
  generate_slide_outline_body base provider model key
  = mraise (ValueError "Unsupported provider. Use openai|anthropic|gemini.").
Proof.
  unfold supported_provider, generate_slide_outline_body. intros H.
  destruct (String.eqb (normalized_provider provider) "openai"); [discriminate|].
  destruct (String.eqb (normalized_provider provider) "anthropic"); [discriminate|].
  destruct (String.eqb (normalized_provider provider) "gemini"); [discriminate|].
  reflexivity.
Qed.

Lemma body_supported (base provider : option string) (model key : string) :
  supported_provider (normalized_provider provider) = true ->
  exists p model', generate_slide_outline_body base provider model key
                   = call_strategy base p model' key.
Proof.
  unfold supported_provider, generate_slide_outline_body; cbv zeta. intros H.
  destruct (String.eqb (normalized_provider provider) "openai").
  { exists OpenAI, (if String.eqb model "" then "gpt-4o-mini" else model). reflexivity. }
  destruct (String.eqb (normalized_provider provider) "anthropic").
  { exists Anthropic, (if String.eqb model "" then "claude-3-5-sonnet-latest" else model).
    reflexivity. }
  destruct (String.eqb (normalized_provider provider) "gemini").
  { exists Gemini, (if String.eqb model "" then "gemini-1.5-pro" else model). reflexivity. }
  discriminate.
Qed.

(** Every attempt leaves the retry bookkeeping alone and, for a supported
    provider, sends exactly one request. *)
Lemma body_world (base provider : option string) (model key : string) (w : World) :
  let w' := snd (generate_slide_outline_body base provider model key w) in
  w_jitters w' = w_jitters w /\ w_sleeps w' = w_sleeps w /\ w_attempts w' = w_attempts w
  /\ List.length (w_sent w')
     = List.length (w_sent w) + (if supported_provider (normalized_provider provider) then 1 else 0).
Proof.
  destruct (supported_provider (normalized_provider provider)) eqn:E.
  - destruct (body_supported base provider model key E) as [p [m' ->]].
    destruct (strategy_world base p m' key w) as [req ->]. cbn. repeat split. lia.
  - rewrite (body_unsupported base provider model key E). cbn. repeat split. lia.
Qed.

Lemma retrying_fail_step {A} (fuel n : nat) (f : M A) (w w' : World) (e : exn) :
  n < 3 -> f (world_at_attempt w) = (Err e, w') ->
  retrying (S fuel) n f w = retrying fuel (S n) f (world_after_backoff n w').
Proof.
  intros Hn H. unfold world_at_attempt in H. cbn [retrying count_attempt snd] in *.
  rewrite H. destruct (Nat.leb_spec 3 n); [lia|]. reflexivity.
Qed.

Lemma retrying_fail_last {A} (fuel : nat) (f : M A) (w w' : World) (e : exn) :
  f (world_at_attempt w) = (Err e, w') ->
  retrying fuel 3 f w = (Err (RetryError e), w').
Proof.
  intros H. unfold world_at_attempt in H. destruct fuel; cbn [retrying count_attempt snd] in *;
  rewrite H; reflexivity.
Qed.

Lemma retrying_three_failures {A} (f : M A) (w : World) (e1 e2 e3 : exn) (w1 w2 w3 : World) :
  f (world_at_attempt w) = (Err e1, w1) ->
  f (world_at_attempt (world_after_backoff 1 w1)) = (Err e2, w2) ->
  f (world_at_attempt (world_after_backoff 2 w2)) = (Err e3, w3) ->
  retrying 3 1 f w = (Err (RetryError e3), w3).
Proof.
  intros H1 H2 H3.
  rewrite (retrying_fail_step 2 1 f w w1 e1); [|lia|exact H1].
  rewrite (retrying_fail_step 1 2 f _ w2 e2); [|lia|exact H2].
  apply (retrying_fail_last 1 f _ w3 e3 H3).
Qed.




(** C1 (corrected). For a provider whose stripped, lower-cased form is
    not [openai], [anthropic] or [gemini], [generate_slide_outline] sends
    no request, but the [ValueError] raised inside the decorated function
    is retried like any other exception: three attempts, two backoff
    sleeps, and then a [RetryError] wrapping the [ValueError]. *)
Theorem generate_slide_outline_unsupported (base provider : option string) (model key : string)
  (w : World) :
  supported_provider (normalized_provider provider) = false ->
  generate_slide_outline base provider model key w
  = (Err (RetryError (ValueError "Unsupported provider. Use openai|anthropic|gemini.")),
     mkWorld (w_replies w) (w_sent w) (tl (tl (w_jitters w)))
             (wait_exponential_jitter 2 (hd 0%Q (tl (w_jitters w)))
              :: wait_exponential_jitter 1 (hd 0%Q (w_jitters w)) :: w_sleeps w)
             (3 + w_attempts w)).
Proof.
  intros H. unfold generate_slide_outline. rewrite (body_unsupported base provider model key H).
  reflexivity.
Qed.

Lemma generate_slide_outline_unsupported_witness :
  supported_provider (normalized_provider (Some " Cohere ")) = false /\
  generate_slide_outline None (Some " Cohere ") "" "k" network_down
  = (Err (RetryError (ValueError "Unsupported provider. Use openai|anthropic|gemini.")),
     mkWorld (w_replies network_down) (w_sent network_down) (tl (tl (w_jitters network_down)))
             (wait_exponential_jitter 2 (hd 0%Q (tl (w_jitters network_down)))
              :: wait_exponential_jitter 1 (hd 0%Q (w_jitters network_down))
              :: w_sleeps network_down)
             (3 + w_attempts network_down)).
Proof.
  split; [reflexivity|].
  apply (generate_slide_outline_unsupported None (Some " Cohere ") "" "k" network_down).
  reflexivity.
Defined.

(** C1 counterexample: the provider [cohere] is attempted three times and
    fails with a [RetryError], after sleeping twice. *)
Lemma generate_slide_outline_unsupported_retried :
  let '(r, w) := generate_slide_outline None (Some "cohere") "" "k" network_down in
  r = Err (RetryError (ValueError "Unsupported provider. Use openai|anthropic|gemini."))
  /\ w_attempts w = 3 /\ List.length (w_sleeps w) = 2 /\ w_sent w = [].
Proof. vm_compute. repeat split. Qed.

(** The bookkeeping of a failed attempt followed by its backoff. *)
Lemma attempt_then_backoff (base provider : option string) (model key : string)
  (n : nat) (w w' : World) (e : exn) :
  generate_slide_outline_body base provider model key (world_at_attempt w) = (Err e, w') ->
  let w'' := world_after_backoff n w' in
  w_jitters w'' = tl (w_jitters w)
  /\ w_sleeps w'' = wait_exponential_jitter n (hd 0%Q (w_jitters w)) :: w_sleeps w
  /\ w_attempts w'' = S (w_attempts w)
  /\ List.length (w_sent w'')
     = List.length (w_sent w) + (if supported_provider (normalized_provider provider) then 1 else 0).
Proof.
  intros H. pose proof (body_world base provider model key (world_at_attempt w)) as B.
  rewrite H in B. cbn [snd] in B. destruct B as (J & S & A & N).
  unfold world_after_backoff, world_at_attempt, count_attempt, mbind, draw_jitter, sleep in *.
  cbn [snd w_jitters w_sleeps w_attempts w_sent] in *. rewrite J, S, A, N. auto.
Qed.

(** C2 (corrected). When all three attempts of the provider call fail,
    [generate_slide_outline] has made exactly three attempts, slept
    [wait(1)] and then [wait(2)] (each [min(2^(n-1) + jitter, 8)]), sent
    one request per attempt for a supported provider, and raises
    tenacity's [RetryError] holding the final attempt's exception, not that
    exception itself. *)
Theorem generate_slide_outline_retry_exhaustion (base provider : option string)
  (model key : string) (w : World) (e1 e2 e3 : exn) (w1 w2 w3 : World) :
  generate_slide_outline_body base provider model key (world_at_attempt w) = (Err e1, w1) ->
  generate_slide_outline_body base provider model key
    (world_at_attempt (world_after_backoff 1 w1)) = (Err e2, w2) ->
  generate_slide_outline_body base provider model key
    (world_at_attempt (world_after_backoff 2 w2)) = (Err e3, w3) ->
  generate_slide_outline base provider model key w = (Err (RetryError e3), w3)
  /\ w_attempts w3 = 3 + w_attempts w
  /\ w_sleeps w3 = wait_exponential_jitter 2 (hd 0%Q (tl (w_jitters w)))
                   :: wait_exponential_jitter 1 (hd 0%Q (w_jitters w)) :: w_sleeps w
  /\ List.length (w_sent w3)
     = List.length (w_sent w) + (if supported_provider (normalized_provider provider) then 3 else 0).
Proof.
  intros H1 H2 H3.
  pose proof (attempt_then_backoff base provider model key 1 w w1 e1 H1) as (J1 & S1 & A1 & N1).
  pose proof (attempt_then_backoff base provider model key 2 _ w2 e2 H2) as (J2 & S2 & A2 & N2).
  pose proof (body_world base provider model key
                (world_at_attempt (world_after_backoff 2 w2))) as B3.
  rewrite H3 in B3. cbn [snd] in B3. destruct B3 as (J3 & S3 & A3 & N3).
  unfold world_at_attempt in S3, A3, N3. cbn [count_attempt snd w_sleeps w_attempts w_sent] in S3, A3, N3.
  rewrite J1 in S2. rewrite S3, S2, S1, A3, A2, A1, N3, N2, N1.
  split; [unfold generate_slide_outline; eapply retrying_three_failures; eauto|].
  split; [lia|]. split; [reflexivity|].
  destruct (supported_provider (normalized_provider provider)); lia.
Qed.

Lemma generate_slide_outline_retry_exhaustion_witness :
  let B := generate_slide_outline_body None (Some "openai") "" "k" in
  let w1 := snd (B (world_at_attempt network_down)) in
  let w2 := snd (B (world_at_attempt (world_after_backoff 1 w1))) in
  let w3 := snd (B (world_at_attempt (world_after_backoff 2 w2))) in
  generate_slide_outline None (Some "openai") "" "k" network_down
    = (Err (RetryError TransportError), w3)
  /\ w_attempts w3 = 3 + w_attempts network_down
  /\ w_sleeps w3 = wait_exponential_jitter 2 (hd 0%Q (tl (w_jitters network_down)))
                   :: wait_exponential_jitter 1 (hd 0%Q (w_jitters network_down))
                   :: w_sleeps network_down
  /\ List.length (w_sent w3)
     = List.length (w_sent network_down)
       + (if supported_provider (normalized_provider (Some "openai")) then 3 else 0).
Proof.
  intros B w1 w2 w3.
  apply (generate_slide_outline_retry_exhaustion None (Some "openai") "" "k" network_down
           TransportError TransportError TransportError w1 w2 w3); reflexivity.
Defined.

(** C2 counterexample: with the network down the caller receives a
    [RetryError], not the [TransportError] of the last attempt. *)
Lemma generate_slide_outline_raises_retry_error :
  fst (generate_slide_outline None (Some "openai") "" "k" network_down)
  = Err (RetryError TransportError)
  /\ fst (generate_slide_outline None (Some "openai") "" "k" network_down) <> Err TransportError.
Proof. vm_compute. split; [reflexivity | discriminate]. Qed.




(** ** Claims C7, C8 and C10: [build_presentation] *)

(** The generator of the examples draws below its bound. *)
Lemma lcg_randbelow_lt (st n : nat) : 0 < n -> fst (lcg_randbelow st n) < n.
Proof. intros H. cbn. apply Nat.mod_upper_bound. lia. Qed.

(** Peel the first step off a successful bind. *)
Ltac res_head H :=
  cbn [res_bind] in H;
  match type of H with
  | res_bind ?m _ = Ok _ => let E := fresh "E" in destruct m eqn:E; [|discriminate H]
  | (let '(_, _) := ?p in _) = Ok _ => destruct p
  end.

Section BuildProofs.
Variable RngState : Type.
Variable rng_seed : Z -> RngState.
Variable randbelow : RngState -> nat -> nat * RngState.

Arguments build_slide {RngState} randbelow fault prs reusable i s st.
Arguments build_slides {RngState} randbelow fault prs reusable i deck st.
Arguments pick_picture {RngState} randbelow phs reusable st.
Arguments picture_draws {RngState} randbelow prs reusable deck st.
Arguments build_presentation {RngState} rng_seed randbelow fault prs deck.

Lemma py_index_some {A} (l : list A) (k : nat) (a : A) :
  py_index l k = Ok a -> nth_error l k = Some a.
Proof. unfold py_index. destruct (nth_error l k); congruence. Qed.

Lemma pick_picture_draw (phs : list Placeholder) (reusable : list bytes) (st st' : RngState)
  (p : option bytes) (L : RngState -> list (option bytes)) :
  pick_picture randbelow phs reusable st = Ok (p, st') ->
  (if negb (Nat.eqb (List.length (picture_placeholders phs)) 0)
      && negb (Nat.eqb (List.length reusable) 0)
   then let '(j, st1) := randbelow st (List.length reusable) in nth_error reusable j :: L st1
   else None :: L st) = p :: L st'.
Proof.
  unfold pick_picture, rng_choice.
  destruct (picture_placeholders phs) as [|ph phs'];
    [cbn [List.length Nat.eqb negb andb]; congruence|].
  destruct reusable as [|r rs]; cbn [List.length Nat.eqb negb andb]; [congruence|].
  destruct (randbelow st (S (List.length rs))) as [j st1].
  unfold py_index. destruct (nth_error (r :: rs) j); cbn [res_bind]; congruence.
Qed.

(** The picture an iteration draws is the draw of [picture_draws]. *)
Lemma build_slide_draw (fault : Faults) (prs : Template) (reusable : list bytes)
  (i : nat) (s : Slide) (rest : list Slide) (st st' : RngState) (o : SlideOut) :
  build_slide randbelow fault prs reusable i s st = Ok (o, st') ->
  picture_draws randbelow prs reusable (s :: rest) st
  = out_picture o :: picture_draws randbelow prs reusable rest st'.
Proof.
  intros H. unfold build_slide in H. repeat res_head H.
  injection H as <- <-. cbn [out_picture picture_draws].
  match goal with
  | C : _choose_layout _ _ = Ok _, N : py_index _ _ = Ok _,
    P : pick_picture _ _ _ _ = Ok _ |- _ =>
      rewrite C, (py_index_some _ _ _ N); exact (pick_picture_draw _ _ _ _ _ _ P)
  end.
Qed.

Lemma build_slides_draws (fault : Faults) (prs : Template) (reusable : list bytes)
  (deck : list Slide) (i : nat) (st : RngState) (os : list SlideOut) :
  build_slides randbelow fault prs reusable i deck st = Ok os ->
  map out_picture os = picture_draws randbelow prs reusable deck st.
Proof.
  revert i st os. induction deck as [|s rest IH]; intros i st os H.
  - cbn in H. injection H as <-. reflexivity.
  - cbn [build_slides] in H.
    destruct (build_slide randbelow fault prs reusable i s st) as [[o st']|e] eqn:B;
      [|discriminate H].
    cbn [res_bind] in H.
    destruct (build_slides randbelow fault prs reusable (S i) rest st') as [os'|e] eqn:R;
      [|discriminate H].
    cbn [res_bind] in H. injection H as <-.
    rewrite (build_slide_draw _ _ _ _ _ rest _ _ _ B). cbn [map]. f_equal. exact (IH _ _ _ R).
Qed.

Lemma build_presentation_slides (fault : Faults) (prs : Template) (deck : list Slide)
  (os : list SlideOut) :
  build_presentation rng_seed randbelow fault prs deck = Ok os ->
  build_slides randbelow fault prs (reusable_images fault prs) 0 deck (rng_seed 42) = Ok os.
Proof.
  unfold build_presentation, guard. destruct (fault OpLoad 0); [discriminate|]. cbn [res_bind].
  destruct (build_slides _ _ _ _ _ _ _) as [os'|e]; [|discriminate]. cbn [res_bind].
  destruct (fault OpSave 0); [discriminate|]. cbn [res_bind]. congruence.
Qed.

(** C7.  Every build seeds its own generator with [42] and draws once per
    slide whose layout has a picture placeholder while the reusable set
    is non-empty, in slide order: the pictures of a successful build are
    [picture_draws] from [Random(42)], so two builds of the same deck
    against the same template with the same reusable set (whatever else
    fails or succeeds along the way) pick the same picture for every
    slide. *)
Theorem build_presentation_pictures_deterministic (f1 f2 : Faults) (prs : Template)
  (deck : list Slide) (os1 os2 : list SlideOut) :
  build_presentation rng_seed randbelow f1 prs deck = Ok os1 ->
  build_presentation rng_seed randbelow f2 prs deck = Ok os2 ->
  reusable_images f1 prs = reusable_images f2 prs ->
  map out_picture os1 = picture_draws randbelow prs (reusable_images f1 prs) deck (rng_seed 42)
  /\ map out_picture os1 = map out_picture os2.
Proof.
  intros H1 H2 HR.
  pose proof (build_slides_draws _ _ _ _ _ _ _ (build_presentation_slides _ _ _ _ H1)) as D1.
  pose proof (build_slides_draws _ _ _ _ _ _ _ (build_presentation_slides _ _ _ _ H2)) as D2.
  split; [exact D1|]. rewrite D1, D2, HR. reflexivity.
Qed.

Hypothesis randbelow_lt : forall st n, 0 < n -> fst (randbelow st n) < n.

Lemma pick_picture_ok (phs : list Placeholder) (reusable : list bytes) (st : RngState) :
  exists p, pick_picture randbelow phs reusable st = Ok p.
Proof.
  unfold pick_picture, rng_choice.
  destruct (picture_placeholders phs) as [|ph phs']; [eexists; reflexivity|].
  destruct reusable as [|r rs]; [eexists; reflexivity|].
  pose proof (randbelow_lt st (List.length (r :: rs))) as L.
  destruct (randbelow st (List.length (r :: rs))) as [j st1]. cbn [fst] in L.
  unfold py_index. destruct (nth_error (r :: rs) j) eqn:E; [eexists; reflexivity|].
  apply nth_error_None in E. cbn [List.length] in *. lia.
Qed.

Ltac lockstep :=
  cbn [res_bind];
  match goal with
  | |- error_of (res_bind ?m _) = error_of (res_bind ?m _) => destruct m; [|reflexivity]
  | |- error_of (res_bind (pick_picture _ ?phs ?r1 ?s1) _)
       = error_of (res_bind (pick_picture _ ?phs ?r2 ?s2) _) =>
      destruct (pick_picture_ok phs r1 s1) as [[? ?] ->];
      destruct (pick_picture_ok phs r2 s2) as [[? ?] ->]
  end.

Lemma build_slide_error (f1 f2 : Faults) (prs : Template) (r1 r2 : list bytes) (i : nat)
  (s : Slide) (st1 st2 : RngState) :
  (forall op i, cosmetic op = false -> f1 op i = f2 op i) ->
  error_of (build_slide randbelow f1 prs r1 i s st1)
  = error_of (build_slide randbelow f2 prs r2 i s st2).
Proof.
  intros Hag. unfold build_slide, guard.
  rewrite (Hag OpLayouts i), (Hag OpAddSlide i), (Hag OpTitleWrite i), (Hag OpBodyWrite i),
    (Hag OpNotes i) by reflexivity.
  repeat lockstep. reflexivity.
Qed.

Lemma build_slides_error (f1 f2 : Faults) (prs : Template) (r1 r2 : list bytes)
  (deck : list Slide) (i : nat) (st1 st2 : RngState) :
  (forall op i, cosmetic op = false -> f1 op i = f2 op i) ->
  error_of (build_slides randbelow f1 prs r1 i deck st1)
  = error_of (build_slides randbelow f2 prs r2 i deck st2).
Proof.
  intros Hag. revert i st1 st2. induction deck as [|s rest IH]; intros i st1 st2; [reflexivity|].
  cbn [build_slides].
  pose proof (build_slide_error f1 f2 prs r1 r2 i s st1 st2 Hag) as E.
  destruct (build_slide randbelow f1 prs r1 i s st1) as [[o1 st1']|e1];
  destruct (build_slide randbelow f2 prs r2 i s st2) as [[o2 st2']|e2];
    cbn [error_of res_bind] in *; try discriminate E; [|exact E].
  specialize (IH (S i) st1' st2').
  destruct (build_slides randbelow f1 prs r1 (S i) rest st1');
  destruct (build_slides randbelow f2 prs r2 (S i) rest st2'); exact IH.
Qed.

Lemma bind_fatal {A B} (m : res A) (k : A -> res B) :
  fails_only_fatally m -> (forall a, fails_only_fatally (k a)) ->
  fails_only_fatally (res_bind m k).
Proof.
  intros Hm Hk e. destruct m as [a|e']; cbn [res_bind]; [apply Hk|].
  intros H. injection H as <-. apply Hm. reflexivity.
Qed.

Lemma guard_fatal (f : Faults) (op : DocOp) (i : nat) :
  cosmetic op = false -> fails_only_fatally (guard f op i).
Proof.
  intros Hc e. unfold guard. destruct (f op i); [|discriminate].
  intros H. injection H as <-. right. exists op. auto.
Qed.

Lemma ok_fatal {A} (a : A) : fails_only_fatally (Ok a).
Proof. intros e H. discriminate H. Qed.

Lemma py_index_fatal {A} (l : list A) (k : nat) : fails_only_fatally (py_index l k).
Proof.
  intros e. unfold py_index. destruct (nth_error l k); [discriminate|]. intros H.
  injection H as <-. left. reflexivity.
Qed.

Lemma choose_layout_fatal (layouts : list SlideLayout) (hint : string) :
  fails_only_fatally (_choose_layout layouts hint).
Proof.
  intros e. unfold _choose_layout.
  destruct (find_first _ _); [discriminate|]. destruct (first_priority _ _); [discriminate|].
  destruct (_ <? _); [discriminate|]. intros H. injection H as <-. left. reflexivity.
Qed.

Lemma pick_picture_fatal (phs : list Placeholder) (reusable : list bytes) (st : RngState) :
  fails_only_fatally (pick_picture randbelow phs reusable st).
Proof.
  intros e. unfold pick_picture, rng_choice.
  destruct (picture_placeholders phs); [discriminate|]. destruct reusable as [|r rs]; [discriminate|].
  destruct (randbelow st (List.length (r :: rs))) as [j st1].
  apply bind_fatal; [apply py_index_fatal | intros; apply ok_fatal].
Qed.

Ltac fatal_step :=
  match goal with
  | |- fails_only_fatally (res_bind _ _) => apply bind_fatal; [|intros ?]
  | |- fails_only_fatally (guard _ _ _) => apply guard_fatal; reflexivity
  | |- fails_only_fatally (Ok _) => apply ok_fatal
  | |- fails_only_fatally (py_index _ _) => apply py_index_fatal
  | |- fails_only_fatally (_choose_layout _ _) => apply choose_layout_fatal
  | |- fails_only_fatally (pick_picture _ _ _ _) => apply pick_picture_fatal
  | |- fails_only_fatally (match ?x with _ => _ end) => destruct x
  end.

Lemma build_slide_fatal (f : Faults) (prs : Template) (r : list bytes) (i : nat) (s : Slide)
  (st : RngState) :
  fails_only_fatally (build_slide randbelow f prs r i s st).
Proof. unfold build_slide. repeat fatal_step. Qed.

Lemma build_slides_fatal (f : Faults) (prs : Template) (r : list bytes) (deck : list Slide)
  (i : nat) (st : RngState) :
  fails_only_fatally (build_slides randbelow f prs r i deck st).
Proof.
  revert i st. induction deck as [|s rest IH]; intros i st; cbn [build_slides]; [apply ok_fatal|].
  apply bind_fatal; [apply build_slide_fatal|]. intros [o st']. apply bind_fatal; [apply IH|].
  intros; apply ok_fatal.
Qed.

(** C8 (corrected).  The font clamp, the picture insertion and the image
    harvest are swallowed: two fault patterns that agree on every other
    call give a build with the same outcome, whichever cosmetic calls
    raise.  A build fails only with an [IndexError] or with the exception
    of a call that is not cosmetic; besides the layout list and the save,
    these fatal calls are loading the template, adding a slide, writing
    its title, its body and its notes. *)
Theorem build_presentation_fault_tolerance (f1 f2 : Faults) (prs : Template)
  (deck : list Slide) :
  (forall op i, cosmetic op = false -> f1 op i = f2 op i) ->
  error_of (build_presentation rng_seed randbelow f1 prs deck)
  = error_of (build_presentation rng_seed randbelow f2 prs deck)
  /\ fails_only_fatally (build_presentation rng_seed randbelow f1 prs deck).
Proof.
  intros Hag. split.
  - unfold build_presentation, guard.
    rewrite (Hag OpLoad 0), (Hag OpSave 0) by reflexivity.
    destruct (f2 OpLoad 0); [reflexivity|]. cbn [res_bind].
    pose proof (build_slides_error f1 f2 prs (reusable_images f1 prs) (reusable_images f2 prs)
                  deck 0 (rng_seed 42) (rng_seed 42) Hag) as E.
    destruct (build_slides randbelow f1 prs (reusable_images f1 prs) 0 deck (rng_seed 42));
    destruct (build_slides randbelow f2 prs (reusable_images f2 prs) 0 deck (rng_seed 42));
      cbn [res_bind error_of] in *; try discriminate E; [|exact E].
    destruct (f2 OpSave 0); reflexivity.
  - unfold build_presentation.
    apply bind_fatal; [apply guard_fatal; reflexivity | intros ?].
    apply bind_fatal; [apply build_slides_fatal | intros ?].
    apply bind_fatal; [apply guard_fatal; reflexivity | intros ?]. apply ok_fatal.
Qed.

(** C10.  With no layouts, [_choose_layout] fails with [IndexError] for
    every hint, while with at least one layout it always picks one; a
    build of a deck with at least one slide against a template without
    layouts therefore raises: [IndexError], unless loading the template or
    listing its layouts raised first. *)
Theorem empty_layouts_fail (layouts : list SlideLayout) (hint : string) (f : Faults)
  (prs : Template) (deck : list Slide) :
  _choose_layout [] hint = Err IndexError
  /\ (layouts <> [] -> exists i, _choose_layout layouts hint = Ok i)
  /\ (slide_layouts prs = [] -> deck <> [] ->
      build_presentation rng_seed randbelow f prs deck
      = Err (if f OpLoad 0 then DocumentError OpLoad
             else if f OpLayouts 0 then DocumentError OpLayouts else IndexError)).
Proof.
  split; [reflexivity|]. split.
  - intros Hne. unfold _choose_layout.
    destruct (find_first _ _); [eexists; reflexivity|].
    destruct (first_priority _ _); [eexists; reflexivity|].
    destruct (_ <? _) eqn:E; [eexists; reflexivity|].
    destruct layouts as [|l ls]; [congruence|].
    apply Nat.ltb_ge in E. destruct ls; cbn in E; lia.
  - intros Hl Hd. destruct deck as [|s rest]; [congruence|].
    unfold build_presentation, guard. destruct (f OpLoad 0); [reflexivity|]. cbn [res_bind].
    cbn [build_slides]. unfold build_slide, guard. destruct (f OpLayouts 0); [reflexivity|].
    cbn [res_bind]. rewrite Hl. reflexivity.
Qed.

End BuildProofs.

Lemma build_presentation_pictures_deterministic_witness :
  let os1 := match build_presentation nat lcg_seed lcg_randbelow no_faults demo_template demo_deck
             with Ok os => os | Err _ => [] end in
  let os2 := match build_presentation nat lcg_seed lcg_randbelow clamp_insert_faults
                     demo_template demo_deck
             with Ok os => os | Err _ => [] end in
  map out_picture os1
  = picture_draws nat lcg_randbelow demo_template (reusable_images no_faults demo_template)
                  demo_deck (lcg_seed 42)
  /\ map out_picture os1 = map out_picture os2.
Proof.
  intros os1 os2.
  apply (build_presentation_pictures_deterministic nat lcg_seed lcg_randbelow no_faults
           clamp_insert_faults demo_template demo_deck os1 os2); vm_compute; reflexivity.
Defined.

Lemma build_presentation_fault_tolerance_witness :
  (forall op i, cosmetic op = false -> no_faults op i = cosmetic_faults op i)
  /\ error_of (build_presentation nat lcg_seed lcg_randbelow no_faults demo_template demo_deck)
     = error_of (build_presentation nat lcg_seed lcg_randbelow cosmetic_faults
                   demo_template demo_deck)
  /\ fails_only_fatally (build_presentation nat lcg_seed lcg_randbelow no_faults
                           demo_template demo_deck).
Proof.
  assert (Hag : forall op i, cosmetic op = false -> no_faults op i = cosmetic_faults op i).
  { intros op i H. unfold no_faults, cosmetic_faults. rewrite H. reflexivity. }
  split; [exact Hag|].
  apply (build_presentation_fault_tolerance nat lcg_seed lcg_randbelow lcg_randbelow_lt
           no_faults cosmetic_faults demo_template demo_deck Hag).
Defined.

(** C8 counterexample: a failure to write a slide title, which is neither
    the layout list nor the save, aborts the build. *)
Lemma build_presentation_title_write_fatal :
  build_presentation nat lcg_seed lcg_randbelow (fault_at OpTitleWrite) demo_template demo_deck
  = Err (DocumentError OpTitleWrite).
Proof. vm_compute. reflexivity. Qed.

Lemma empty_layouts_fail_witness :
  _choose_layout [] "Title and Content" = Err IndexError
  /\ (slide_layouts demo_template <> [] ->
      exists i, _choose_layout (slide_layouts demo_template) "Title and Content" = Ok i)
  /\ (slide_layouts (mkTemplate [] []) = [] -> demo_deck <> [] ->
      build_presentation nat lcg_seed lcg_randbelow no_faults (mkTemplate [] []) demo_deck
      = Err (if no_faults OpLoad 0 then DocumentError OpLoad
             else if no_faults OpLayouts 0 then DocumentError OpLayouts else IndexError))
  /\ slide_layouts demo_template <> [] /\ slide_layouts (mkTemplate [] []) = []
  /\ demo_deck <> [].
Proof.
  split; [|split; [|split; [|split; [discriminate | split; [reflexivity | discriminate]]]]];
  apply (empty_layouts_fail nat lcg_seed lcg_randbelow (slide_layouts demo_template)
           "Title and Content" no_faults (mkTemplate [] []) demo_deck).
Defined.
